(** * Sanctuary Builder backend: progress statistics and order totals

    A shallow embedding of [src/main.py] (the endpoints [complete_today],
    [progress_stats] and [create_order], with the helpers [collection_name],
    [ensure_db] and [parse_d]) and the properties of the streak computation
    and of the order total that the specification states.

    Python values are embedded as the inductive [pyval]; documents are
    [gmap string pyval]; Python [int] is [Z]; Python [float] is the binary64
    type [float] of the kernel, whose operations round to nearest, ties to
    even, as CPython's do; a [datetime.date] is its proleptic Gregorian
    ordinal ([date.toordinal()]), a [positive], so that 0001-01-01 is [1];
    a Python [str] is the [string] of its UTF-8 bytes; an exception is the
    [Raise] branch of [outcome]. The properties of the specification are
    stated in a vocabulary of their own: a record with [completed == true]
    is one whose field is the boolean [True], and a number rounded to 2
    decimal places is described over the rationals. *)

From Stdlib Require Import ZArith QArith Qabs String Ascii List Floats Lia Permutation.
From stdpp Require Import base option gmap sets list strings.
From Equations Require Import Equations.

#[local] Set Warnings "-register-all,-inexact-float".
#[local] Open Scope Z_scope.

(** ** Exceptions and outcomes *)

Inductive exn : Type :=
| HTTPException (status_code : Z) (detail : string)
| TypeError
| ValueError
| OverflowError.

Inductive outcome (A : Type) : Type :=
| Return (a : A)
| Raise (e : exn).
Arguments Return {A} a.
Arguments Raise {A} e.

(** Sequencing: an exception raised by the first computation propagates. *)
#[export] Instance outcome_ret : MRet outcome := fun A a => Return a.
#[export] Instance outcome_bind : MBind outcome := fun A B k m =>
  match m with
  | Return a => k a
  | Raise e => Raise e
  end.

Definition returns {A : Type} (m : outcome A) : Prop := exists a, m = Return a.

(** ** Python values *)

(** A [datetime.date], as [date.toordinal()]. *)
Abbreviation date := positive.

Inductive pyval : Type :=
| VNone
| VBool (b : bool)
| VInt (z : Z)
| VFloat (f : float)
| VStr (s : string)
| VDate (d : date)
| VList (l : list pyval)
| VDict (m : gmap string pyval).

(** The values are those of a JSON document and dates; a date is never a
    [datetime]. A document of the store is a Python [dict] with string
    keys. *)
Abbreviation doc := (gmap string pyval).

(** [d.get(key)]: [None] when the key is absent. *)
Definition get (key : string) (d : doc) : pyval :=
  match d !! key with
  | Some v => v
  | None => VNone
  end.

(** [d.get(key, default)]. *)
Definition get_default (key : string) (default : pyval) (d : doc) : pyval :=
  match d !! key with
  | Some v => v
  | None => default
  end.

(** Truth value of an object, as tested by [if x]. *)
Definition truthy (v : pyval) : bool :=
  match v with
  | VNone => false
  | VBool b => b
  | VInt z => negb (z =? 0)
  | VFloat f => negb (PrimFloat.eqb f 0%float)
  | VStr s => negb (String.eqb s "")
  | VDate _ => true
  | VList l => match l with [] => false | _ => true end
  | VDict m => negb (bool_decide (size m = 0%nat))
  end.

(** ** Floating point builtins *)

(** [float(z)] for an [int] [z]: the nearest binary64 value, ties to even;
    [OverflowError] when that is not finite. *)
Definition float_of_int (z : Z) : outcome float :=
  match binary_normalize prec emax z 0 false with
  | S754_infinity _ => Raise OverflowError
  | sf => Return (SF2Prim sf)
  end.

(** [int(f)] for a [float] [f]: truncation toward zero. *)
Definition int_of_float (f : float) : outcome Z :=
  match Prim2SF f with
  | S754_zero _ => Return 0
  | S754_infinity _ => Raise OverflowError
  | S754_nan => Raise ValueError
  | S754_finite s m e =>
      let a := match e with
               | Z.neg k => Z.pos m / 2 ^ Z.pos k
               | _ => Z.pos m * 2 ^ e
               end in
      Return (if s then - a else a)
  end.

(** Nearest integer to [n / d], ties to even, for [0 <= n] and [0 < d]. *)
Definition div_half_even (n d : Z) : Z :=
  let q := n / d in
  let r := n mod d in
  match 2 * r ?= d with
  | Lt => q
  | Gt => q + 1
  | Eq => if Z.even q then q else q + 1
  end.

(** [round(x, 2)] for a [float] [x]: infinities and NaN round to themselves;
    a finite [x] is rounded, from its exact value, to the nearest multiple
    of 1/100, ties to even, and the decimal so obtained is converted back to
    the nearest binary64 value, keeping the sign of [x]. *)
Definition round2 (x : float) : float :=
  match Prim2SF x with
  | S754_finite s m e =>
      let hundredths :=
        match e with
        | Z.neg k => div_half_even (Z.pos m * 100) (2 ^ Z.pos k)
        | _ => Z.pos m * 2 ^ e * 100
        end in
      match hundredths with
      | Z.pos n =>
          SF2Prim (SFdiv prec emax (S754_finite s n 0) (S754_finite false 100 0))
      | _ => SF2Prim (S754_zero s)
      end
  | _ => x
  end.

(** ** Calendar dates *)

Definition is_leap (year : Z) : bool :=
  (year mod 4 =? 0) && (negb (year mod 100 =? 0) || (year mod 400 =? 0)).

Definition days_in_month (year month : Z) : Z :=
  if (month =? 2) && is_leap year then 29
  else nth (Z.to_nat month) [-1; 31; 28; 31; 30; 31; 30; 31; 31; 30; 31; 30; 31] (-1).

Definition days_before_year (year : Z) : Z :=
  let y := year - 1 in
  y * 365 + y / 4 - y / 100 + y / 400.

Definition days_before_month (year month : Z) : Z :=
  nth (Z.to_nat month) [-1; 0; 31; 59; 90; 120; 151; 181; 212; 243; 273; 304; 334] (-1)
  + (if (2 <? month) && is_leap year then 1 else 0).

Definition ymd2ord (year month day : Z) : Z :=
  days_before_year year + days_before_month year month + day.

(** [date(year, month, day)]: [ValueError] outside year 1..9999, month
    1..12, day 1..[days_in_month]. *)
Definition mk_date (year month day : Z) : option date :=
  if (1 <=? year) && (year <=? 9999) && (1 <=? month) && (month <=? 12)
     && (1 <=? day) && (day <=? days_in_month year month)
  then Some (Z.to_pos (ymd2ord year month day))
  else None.

(** The year, month and day of an ordinal. *)
Definition ord2ymd (d : date) : Z * Z * Z :=
  let n := Z.pos d - 1 in
  let n400 := n / 146097 in
  let n := n mod 146097 in
  let year := n400 * 400 + 1 in
  let n100 := n / 36524 in
  let n := n mod 36524 in
  let n4 := n / 1461 in
  let n := n mod 1461 in
  let n1 := n / 365 in
  let n := n mod 365 in
  let year := year + n100 * 100 + n4 * 4 + n1 in
  if (n1 =? 4) || (n100 =? 4) then (year - 1, 12, 31)
  else
    let leapyear := (n1 =? 3) && (negb (n4 =? 24) || (n100 =? 3)) in
    let month := Z.shiftr (n + 50) 5 in
    let preceding :=
      days_before_month 1 month + (if (2 <? month) && leapyear then 1 else 0) in
    if n <? preceding then
      let month := month - 1 in
      let preceding :=
        preceding - (nth (Z.to_nat month) [-1; 31; 28; 31; 30; 31; 30; 31; 31; 30; 31; 30; 31] (-1)
                     + (if (month =? 2) && leapyear then 1 else 0)) in
      (year, month, n - preceding + 1)
    else (year, month, n - preceding + 1).

Definition digit_char (n : Z) : ascii := ascii_of_N (48 + Z.to_N (n mod 10)).

(** [d.isoformat()], that is ["%04d-%02d-%02d" % (year, month, day)], for a
    date up to [date.max]. *)
Definition isoformat (d : date) : string :=
  let '(y, m, dd) := ord2ymd d in
  string_of_list_ascii
    [digit_char (y / 1000); digit_char (y / 100); digit_char (y / 10); digit_char y;
     "-"%char; digit_char (m / 10); digit_char m;
     "-"%char; digit_char (dd / 10); digit_char dd].

(** *** [datetime.strptime(s, "%Y-%m-%d")]

    A [string] holds the UTF-8 encoding of a Python [str], and matching goes
    by code points. The format compiles to the regular expression
    [(?P<Y>\d\d\d\d)-(?P<m>1[0-2]|0[1-9]|[1-9])-(?P<d>3[0-1]|[1-2]\d|0[1-9]|[1-9]| [1-9])],
    matched at the start of the string; the match must consume the whole
    string, and the three numbers, read by [int], must make a date. A
    bracketed class holds ASCII digits only; [\d] is any decimal digit of
    Unicode, and [int] reads it with its decimal value. *)

(** A continuation byte of UTF-8, without its two high bits. *)
Definition cont (b : ascii) : option N :=
  let n := N_of_ascii b in
  if ((128 <=? n) && (n <? 192))%N then Some (n - 128)%N else None.

(** The code points of a UTF-8 byte sequence. A byte that starts no
    well-formed sequence, which no [str] encodes to, gives a number above
    all code points. *)
Fixpoint utf8_decode (bytes : list ascii) : list N :=
  match bytes with
  | [] => []
  | b0 :: rest =>
      let n0 := N_of_ascii b0 in
      let invalid := (1114112 + n0)%N :: utf8_decode rest in
      if (n0 <? 128)%N then n0 :: utf8_decode rest
      else
        match rest with
        | b1 :: rest1 =>
            match cont b1 with
            | Some c1 =>
                if ((194 <=? n0) && (n0 <=? 223))%N
                then ((n0 - 192) * 64 + c1)%N :: utf8_decode rest1
                else
                  match rest1 with
                  | b2 :: rest2 =>
                      match cont b2 with
                      | Some c2 =>
                          let cp3 := ((n0 - 224) * 4096 + c1 * 64 + c2)%N in
                          if ((224 <=? n0) && (n0 <=? 239) && (2048 <=? cp3)
                              && negb ((55296 <=? cp3) && (cp3 <=? 57343)))%N
                          then cp3 :: utf8_decode rest2
                          else
                            match rest2 with
                            | b3 :: rest3 =>
                                match cont b3 with
                                | Some c3 =>
                                    let cp4 :=
                                      ((n0 - 240) * 262144 + c1 * 4096 + c2 * 64 + c3)%N in
                                    if ((240 <=? n0) && (n0 <=? 244) && (65536 <=? cp4)
                                        && (cp4 <=? 1114111))%N
                                    then cp4 :: utf8_decode rest3
                                    else invalid
                                | None => invalid
                                end
                            | [] => invalid
                            end
                      | None => invalid
                      end
                  | [] => invalid
                  end
            | None => invalid
            end
        | [] => invalid
        end
  end.

(** The digits zero of Unicode 14.0, the table of CPython 3.11: the decimal
    digits (category Nd) are the ten code points from each of them on, with
    the values 0 to 9. *)
Definition decimal_zeros : list N :=
  [48; 1632; 1776; 1984; 2406; 2534; 2662; 2790; 2918; 3046; 3174; 3302; 3430;
   3558; 3664; 3792; 3872; 4160; 4240; 6112; 6160; 6470; 6608; 6784; 6800; 6992;
   7088; 7232; 7248; 42528; 43216; 43264; 43472; 43504; 43600; 44016; 65296;
   66720; 68912; 69734; 69872; 69942; 70096; 70384; 70736; 70864; 71248; 71360;
   71472; 71904; 72016; 72784; 73040; 73120; 92768; 92864; 93008; 120782; 120792;
   120802; 120812; 120822; 123200; 123632; 125264; 130032]%N.

(** [\d]: the decimal value of a code point that is a decimal digit. *)
Definition digit_of (c : N) : option Z :=
  match List.find (fun zero => ((zero <=? c) && (c <? zero + 10))%N) decimal_zeros with
  | Some zero => Some (Z.of_N (c - zero))
  | None => None
  end.

(** A class [[lo-hi]] of ASCII digits. *)
Definition digit_in (lo hi : Z) (c : N) : option Z :=
  let n := Z.of_N c in
  if (48 + lo <=? n) && (n <=? 48 + hi) then Some (n - 48) else None.

(** The group [Y]: four digits. *)
Definition match_Y (s : list N) : option (Z * list N) :=
  match s with
  | a :: b :: c :: d :: rest =>
      match digit_of a, digit_of b, digit_of c, digit_of d with
      | Some a, Some b, Some c, Some d => Some (a * 1000 + b * 100 + c * 10 + d, rest)
      | _, _, _, _ => None
      end
  | _ => None
  end.

Definition match_dash (s : list N) : option (list N) :=
  match s with
  | c :: rest => if (c =? 45)%N then Some rest else None
  | [] => None
  end.

(** One alternative made of a first character in [lo1..hi1] and a second in
    [lo2..hi2]. *)
Definition two_digits (lo1 hi1 lo2 hi2 : Z) (s : list N) : option (Z * list N) :=
  match s with
  | a :: b :: rest =>
      match digit_in lo1 hi1 a, digit_in lo2 hi2 b with
      | Some a, Some b => Some (a * 10 + b, rest)
      | _, _ => None
      end
  | _ => None
  end.

(** The alternative [[lo-hi]\d]. *)
Definition digit_then_any (lo hi : Z) (s : list N) : option (Z * list N) :=
  match s with
  | a :: b :: rest =>
      match digit_in lo hi a, digit_of b with
      | Some a, Some b => Some (a * 10 + b, rest)
      | _, _ => None
      end
  | _ => None
  end.

Definition one_digit (lo hi : Z) (s : list N) : option (Z * list N) :=
  match s with
  | a :: rest =>
      match digit_in lo hi a with
      | Some a => Some (a, rest)
      | None => None
      end
  | [] => None
  end.

Definition space_digit (s : list N) : option (Z * list N) :=
  match s with
  | c :: rest => if (c =? 32)%N then one_digit 1 9 rest else None
  | [] => None
  end.

(** The first alternative that matches, in the order of the pattern. *)
Fixpoint first_match (alts : list (list N -> option (Z * list N)))
    (s : list N) : option (Z * list N) :=
  match alts with
  | [] => None
  | alt :: alts' =>
      match alt s with
      | Some r => Some r
      | None => first_match alts' s
      end
  end.

(** The group [m]. A two-character alternative that is followed by
    something else than [-] leaves no other way to match: the one-character
    alternative would be followed by a digit. *)
Definition match_m : list N -> option (Z * list N) :=
  first_match [two_digits 1 1 0 2; two_digits 0 0 1 9; one_digit 1 9].

(** The group [d], the last of the pattern. *)
Definition match_d : list N -> option (Z * list N) :=
  first_match [two_digits 3 3 0 1; digit_then_any 1 2; two_digits 0 0 1 9;
               one_digit 1 9; space_digit].

Definition strptime_ymd (s : string) : option date :=
  match match_Y (utf8_decode (list_ascii_of_string s)) with
  | Some (year, s1) =>
      match match_dash s1 with
      | Some s2 =>
          match match_m s2 with
          | Some (month, s3) =>
              match match_dash s3 with
              | Some s4 =>
                  match match_d s4 with
                  | Some (day, []) => mk_date year month day
                  | _ => None
                  end
              | None => None
              end
          | None => None
          end
      | None => None
      end
  | None => None
  end.

(** *** The calendar, checked

    Two devices for the proofs about [ord2ymd]: its last step as a function
    of its own, and a bounded check by iteration. *)

(** The last step of [ord2ymd]: month and day from the day [n] of the year,
    counted from 0. *)
Definition month_day (n : Z) (leapyear : bool) : Z * Z :=
  let month := Z.shiftr (n + 50) 5 in
  let preceding :=
    days_before_month 1 month + (if (2 <? month) && leapyear then 1 else 0) in
  if n <? preceding then
    let month := month - 1 in
    let preceding :=
      preceding - (nth (Z.to_nat month) [-1; 31; 28; 31; 30; 31; 30; 31; 31; 30; 31; 30; 31] (-1)
                   + (if (month =? 2) && leapyear then 1 else 0)) in
    (month, n - preceding + 1)
  else (month, n - preceding + 1).

Definition month_day_ok (leapyear : bool) (n : Z) : bool :=
  let '(m, d) := month_day n leapyear in
  (1 <=? m) && (m <=? 12) && (1 <=? d)
  && (d <=? (if (m =? 2) && leapyear then 29
             else nth (Z.to_nat m) [-1; 31; 28; 31; 30; 31; 30; 31; 31; 30; 31; 30; 31] (-1)))
  && (nth (Z.to_nat m) [-1; 0; 31; 59; 90; 120; 151; 181; 212; 243; 273; 304; 334] (-1)
      + (if (2 <? m) && leapyear then 1 else 0) + d =? n + 1).

Definition check_upto (f : Z -> bool) (n : N) : Z * bool :=
  N.iter n (fun s => (s.1 + 1, s.2 && f s.1)) (0, true).

(** ** The store

    Modelled from the spec: [database.py] ([db], [create_document],
    [get_documents]) is not among the source files. The spec gives the store
    as a collaborator: [create(collectionName, document) -> generatedId]
    appends a document and returns an opaque identifier, and
    [query(collectionName, filter) -> sequence of documents] returns, in
    insertion order, the documents matching an equality filter, a mapping
    from field name to expected value. The filters of [main.py] compare
    fields with strings. The handle [db] is [None] when no store is
    configured. *)

Record store : Type := mk_store {
  collections : gmap string (list doc);
  next_id : positive;
}.

Definition documents (st : store) (collection : string) : list doc :=
  match collections st !! collection with
  | Some l => l
  | None => []
  end.

Definition create_document (st : store) (collection : string) (d : doc) : store * positive :=
  (mk_store (<[collection := documents st collection ++ [d]]> (collections st))
            (Pos.succ (next_id st)),
   next_id st).

Definition matches (filter_dict : gmap string string) (d : doc) : bool :=
  forallb (fun kv => match d !! kv.1 with
                     | Some (VStr s) => String.eqb s kv.2
                     | _ => false
                     end)
          (map_to_list filter_dict).

Definition get_documents (st : store) (collection : string)
    (filter_dict : gmap string string) : list doc :=
  filter (fun d => matches filter_dict d = true) (documents st collection).

(** ** Helpers of [main.py] *)

(** The model classes of [schemas.py] that [main.py] imports. *)
Inductive model_cls : Type := Devotional | Progress | Reward | Product | Order | User.

(** [model_cls.__name__.lower()] *)
Definition collection_name (m : model_cls) : string :=
  match m with
  | Devotional => "devotional"
  | Progress => "progress"
  | Reward => "reward"
  | Product => "product"
  | Order => "order"
  | User => "user"
  end.

(** [ensure_db]: the handle is checked, and handed to what follows. *)
Definition ensure_db (db : option store) : outcome store :=
  match db with
  | None => Raise (HTTPException 500 "Database not available")
  | Some st => Return st
  end.

(** [parse_d], local to [progress_stats]: a string goes through
    [strptime], whose [ValueError] is caught; a date is returned as it is;
    anything else gives [None]. It is applied to the value under the key
    ["date"], where [complete_today] writes the day of a completion (the
    class [Progress] of [schemas.py], which calls the field [day], only
    gives the collection its name). *)
Definition parse_d (d : pyval) : option date :=
  match d with
  | VStr s => strptime_ymd s
  | VDate d => Some d
  | _ => None
  end.

(** ** Requests and responses *)

Record CompleteRequest : Type := {
  cr_user_id : string;
  cr_date : option date;
}.

Record CompleteResponse : Type := {
  c_id : positive;
  c_points_earned : Z;
}.

Record StatsResponse : Type := {
  days_completed : Z;
  current_streak : Z;
  total_points : Z;
}.

Record OrderCreate : Type := {
  oc_user_id : string;
  oc_items : list doc;
  oc_currency : string;
}.

Record OrderResponse : Type := {
  o_id : positive;
  o_total_amount : pyval;
}.

(** ** Sorting and the streak loop *)

(** The order of [list.sort] on the keys [parse_d(x.get("date"))]. The list
    that is sorted holds no key [None]. *)
Definition key_lt (a b : option date) : bool :=
  match a, b with
  | Some x, Some y => (x <? y)%positive
  | _, _ => false
  end.

Definition sort_key (x : doc) : option date := parse_d (get "date" x).

(** [list.sort(key=...)] is stable: an item goes before the first item
    already placed whose key is not smaller. *)
Fixpoint insert_sorted (x : doc) (l : list doc) : list doc :=
  match l with
  | [] => [x]
  | y :: l' =>
      if key_lt (sort_key y) (sort_key x) then y :: insert_sorted x l'
      else x :: y :: l'
  end.

Fixpoint sort_by_date (l : list doc) : list doc :=
  match l with
  | [] => []
  | x :: l' => insert_sorted x (sort_by_date l')
  end.

(** The loop [while day_ptr in completed_dates: streak += 1;
    day_ptr = day_ptr - timedelta(days=1)]. Subtracting a day from
    0001-01-01 raises [OverflowError]. *)
Equations? streak_loop (completed_dates : gset (option date)) (day_ptr : date)
    (streak : Z) : outcome Z by wf (Pos.to_nat day_ptr) lt :=
  streak_loop completed_dates day_ptr streak
    with decide (Some day_ptr ∈ completed_dates) := {
    | right _ => Return streak
    | left _ with decide (day_ptr = 1%positive) := {
        | left _ => Raise OverflowError
        | right _ => streak_loop completed_dates (Pos.pred day_ptr) (streak + 1) } }.
Proof. lia. Qed.

(** ** Sample data *)

(** A string conversion that accepts nothing, for inputs that hold no string
    to convert. *)
Definition reject_str {A : Type} (s : string) : option A := None.

Definition progress_record (day : string) (completed : bool) (points : pyval) : doc :=
  <["user_id" := VStr "u1"]>
  (<["date" := VStr day]>
  (<["completed" := VBool completed]>
  (<["points_earned" := points]> ∅))).

Definition jan_01 : doc := progress_record "2025-01-01" true (VInt 10).
Definition jan_02 : doc := progress_record "2025-01-02" true (VInt 10).
Definition malformed : doc := progress_record "not-a-date" true (VStr "ten").

(** Records of days that were opened and not completed, a record whose date
    is written with fullwidth digits, and one whose [completed] is not a
    boolean. *)
Definition dec_31_skipped : doc := progress_record "2024-12-31" false (VInt 0).
Definition jan_02_skipped : doc := progress_record "2025-01-02" false (VInt 5).
Definition jan_02_fullwidth : doc := progress_record "２０２５-01-02" true (VInt 10).
Definition jan_02_said_no : doc := <["completed" := VStr "no"]> jan_02.

(** 2025-01-02 and 2025-01-04, as ordinals. *)
Definition day_2025_01_02 : date := 739253%positive.
Definition day_2025_01_04 : date := 739255%positive.

Definition line_item (qty price : pyval) : doc :=
  <["sku" := VStr "sku-1"]> (<["qty" := qty]> (<["price" := price]> ∅)).

(** Nine units at 0.055 each. *)
Definition nine_at_0_055 : doc := line_item (VInt 9) (VFloat 0.055).

Definition empty_store : store := mk_store ∅ 1.

Section Endpoints.

(** [int(s)] and [float(s)] for a string [s] are the interpreter's;
    [None] stands for their [ValueError]. *)
Variable int_of_str : string -> option Z.
Variable float_of_str : string -> option float.

(** The builtin [int(v)]. *)
Definition py_int (v : pyval) : outcome Z :=
  match v with
  | VBool b => Return (if b then 1 else 0)
  | VInt z => Return z
  | VFloat f => int_of_float f
  | VStr s => match int_of_str s with
              | Some z => Return z
              | None => Raise ValueError
              end
  | VNone | VDate _ | VList _ | VDict _ => Raise TypeError
  end.

(** The builtin [float(v)]. *)
Definition py_float (v : pyval) : outcome float :=
  match v with
  | VBool b => Return (if b then 1%float else 0%float)
  | VInt z => float_of_int z
  | VFloat f => Return f
  | VStr s => match float_of_str s with
              | Some f => Return f
              | None => Raise ValueError
              end
  | VNone | VDate _ | VList _ | VDict _ => Raise TypeError
  end.

(** [POST /api/progress/complete]; [today] is [date.today()]. *)
Definition complete_today (db : option store) (payload : CompleteRequest)
    (today : date) : outcome (store * CompleteResponse) :=
  st ← ensure_db db;
  let target_date :=
    isoformat (match cr_date payload with Some d => d | None => today end) in
  let doc : gmap string pyval :=
    <["user_id" := VStr (cr_user_id payload)]>
    (<["date" := VStr target_date]>
    (<["completed" := VBool true]>
    (<["points_earned" := VInt 10]> ∅))) in
  let '(st', inserted_id) := create_document st (collection_name Progress) doc in
  Return (st', {| c_id := inserted_id; c_points_earned := 10 |}).

(** [sum(int(i.get("points_earned", 0)) for i in items)] *)
Fixpoint sum_points (acc : Z) (items : list doc) : outcome Z :=
  match items with
  | [] => Return acc
  | i :: items' =>
      z ← py_int (get_default "points_earned" (VInt 0) i);
      sum_points (acc + z) items'
  end.

(** The body of [progress_stats] once the documents are fetched (the
    spec's [computeStats]). *)
Definition compute_stats (items : list doc) (today : date) : outcome StatsResponse :=
  let items := filter (fun i => parse_d (get "date" i) ≠ None) items in
  let items := sort_by_date items in
  let completed_dates : gset (option date) :=
    list_to_set ((fun i => parse_d (get "date" i))
                   <$> filter (fun i => truthy (get "completed" i) = true) items) in
  streak ← streak_loop completed_dates today 0;
  total_points ← sum_points 0 items;
  Return {| days_completed := Z.of_nat (size completed_dates);
            current_streak := streak;
            total_points := total_points |}.

(** [GET /api/progress/stats] *)
Definition progress_stats (db : option store) (user_id : string) (today : date)
    : outcome StatsResponse :=
  st ← ensure_db db;
  let items := get_documents st (collection_name Progress) {["user_id" := user_id]} in
  compute_stats items today.

(** The loop of [create_order] over [payload.items]. *)
Fixpoint order_total (total : float) (items : list doc) : outcome float :=
  match items with
  | [] => Return total
  | item :: items' =>
      qty ← py_float (get_default "qty" (VInt 1) item);
      price ← py_float (get_default "price" (VInt 0) item);
      order_total (total + qty * price)%float items'
  end.

(** [POST /api/orders] *)
Definition create_order (db : option store) (payload : OrderCreate)
    : outcome (store * OrderResponse) :=
  st ← ensure_db db;
  total ← order_total 0%float (oc_items payload);
  let record : gmap string pyval :=
    <["user_id" := VStr (oc_user_id payload)]>
    (<["items" := VList (VDict <$> oc_items payload)]>
    (<["total_amount" := VFloat (round2 total)]>
    (<["currency" := VStr (oc_currency payload)]>
    (<["status" := VStr "pending"]> ∅)))) in
  let '(st', inserted_id) := create_document st (collection_name Order) record in
  Return (st', {| o_id := inserted_id; o_total_amount := get "total_amount" record |}).

(** ** Devotionals and products *)

(** [get_documents(collection, filter, limit=n)]; modelled from the spec as
    the store is: the first [n] documents of the query. *)
Definition get_documents_limit (st : store) (collection : string)
    (filter_dict : gmap string string) (limit : nat) : list doc :=
  take limit (get_documents st collection filter_dict).

(** An [Optional[str]] field, as a value. *)
Definition opt_str (o : option string) : pyval :=
  match o with
  | Some s => VStr s
  | None => VNone
  end.

Record DevotionalCreate : Type := {
  dc_date : date;
  dc_title_en : string;
  dc_title_zh : string;
  dc_passage_en : option string;
  dc_passage_zh : option string;
  dc_content_en : string;
  dc_content_zh : string;
  dc_reflection_prompt_en : option string;
  dc_reflection_prompt_zh : option string;
}.

(** [payload.model_dump()] for a [DevotionalCreate]. *)
Definition devotional_dump (payload : DevotionalCreate) : doc :=
  <["date" := VDate (dc_date payload)]>
  (<["title_en" := VStr (dc_title_en payload)]>
  (<["title_zh" := VStr (dc_title_zh payload)]>
  (<["passage_en" := opt_str (dc_passage_en payload)]>
  (<["passage_zh" := opt_str (dc_passage_zh payload)]>
  (<["content_en" := VStr (dc_content_en payload)]>
  (<["content_zh" := VStr (dc_content_zh payload)]>
  (<["reflection_prompt_en" := opt_str (dc_reflection_prompt_en payload)]>
  (<["reflection_prompt_zh" := opt_str (dc_reflection_prompt_zh payload)]> ∅)))))))).

(** The answer of the two devotional lookups. *)
Record DevotionalView : Type := {
  dv_date : pyval;
  dv_title : pyval;
  dv_passage : pyval;
  dv_content : pyval;
  dv_reflection_prompt : pyval;
}.

(** [d.get(field + "_en") if locale == "en" else d.get(field + "_zh")] *)
Definition localized (locale : string) (field_en field_zh : string) (d : doc) : pyval :=
  if String.eqb locale "en" then get field_en d else get field_zh d.

(** [POST /api/devotionals] *)
Definition create_devotional (db : option store) (payload : DevotionalCreate)
    : outcome (store * positive) :=
  st ← ensure_db db;
  let data := devotional_dump payload in
  let data := <["date" := VStr (isoformat (dc_date payload))]> data in
  Return (create_document st (collection_name Devotional) data).

(** [GET /api/devotionals] *)
Definition get_devotional_by_date (db : option store) (qdate locale : string)
    : outcome DevotionalView :=
  st ← ensure_db db;
  let docs :=
    get_documents_limit st (collection_name Devotional) {["date" := qdate]} 1 in
  match docs with
  | [] => Raise (HTTPException 404 "Devotional not found")
  | d :: _ =>
      Return {| dv_date := VStr qdate;
                dv_title := localized locale "title_en" "title_zh" d;
                dv_passage := localized locale "passage_en" "passage_zh" d;
                dv_content := localized locale "content_en" "content_zh" d;
                dv_reflection_prompt :=
                  localized locale "reflection_prompt_en" "reflection_prompt_zh" d |}
  end.

(** The exceptions of [get_today_devotional]: those of [exn], and the
    [AttributeError] of [d.get("date").isoformat()] on a value that is no
    date. *)
Inductive today_exn : Type :=
| Exn (e : exn)
| AttributeError.

(** [d.get("date") if isinstance(d.get("date"), str) else
    d.get("date").isoformat() if d.get("date") else today.isoformat()] *)
Definition today_date_field (d : doc) (today : date) : pyval + today_exn :=
  match get "date" d with
  | VStr s => inl (VStr s)
  | v =>
      if truthy v then
        match v with
        | VDate x => inl (VStr (isoformat x))
        | _ => inr AttributeError
        end
      else inl (VStr (isoformat today))
  end.

(** [GET /api/devotionals/today]; [today] is [date.today()]. *)
Definition get_today_devotional (db : option store) (locale : string) (today : date)
    : DevotionalView + today_exn :=
  match ensure_db db with
  | Raise e => inr (Exn e)
  | Return st =>
      let docs :=
        get_documents_limit st (collection_name Devotional)
          {["date" := isoformat today]} 1 in
      match docs with
      | [] =>
          inl {| dv_date := VStr (isoformat today);
                 dv_title := VStr (if String.eqb locale "en" then "No devotional yet"
                                   else "今天还没有灵修内容");
                 dv_passage := VNone;
                 dv_content := VStr (if String.eqb locale "en" then "Come back later."
                                     else "稍后再来。");
                 dv_reflection_prompt := VNone |}
      | d :: _ =>
          match today_date_field d today with
          | inr e => inr e
          | inl date_field =>
              inl {| dv_date := date_field;
                     dv_title := localized locale "title_en" "title_zh" d;
                     dv_passage := localized locale "passage_en" "passage_zh" d;
                     dv_content := localized locale "content_en" "content_zh" d;
                     dv_reflection_prompt :=
                       localized locale "reflection_prompt_en" "reflection_prompt_zh" d |}
          end
      end
  end.

Record ProductCreate : Type := {
  pc_sku : string;
  pc_title_en : string;
  pc_title_zh : string;
  pc_description_en : option string;
  pc_description_zh : option string;
  pc_price : float;
  pc_currency : string;
  pc_categories : list string;
  pc_media_urls : list string;
  pc_attributes : gmap string string;
  pc_status : string;
}.

(** [payload.model_dump()] for a [ProductCreate]. *)
Definition product_dump (payload : ProductCreate) : doc :=
  <["sku" := VStr (pc_sku payload)]>
  (<["title_en" := VStr (pc_title_en payload)]>
  (<["title_zh" := VStr (pc_title_zh payload)]>
  (<["description_en" := opt_str (pc_description_en payload)]>
  (<["description_zh" := opt_str (pc_description_zh payload)]>
  (<["price" := VFloat (pc_price payload)]>
  (<["currency" := VStr (pc_currency payload)]>
  (<["categories" := VList (VStr <$> pc_categories payload)]>
  (<["media_urls" := VList (VStr <$> pc_media_urls payload)]>
  (<["attributes" := VDict (VStr <$> pc_attributes payload)]>
  (<["status" := VStr (pc_status payload)]> ∅)))))))))).

(** One entry of the product list. *)
Record ProductView : Type := {
  pv_sku : pyval;
  pv_title : pyval;
  pv_description : pyval;
  pv_price : pyval;
  pv_currency : pyval;
  pv_media_urls : pyval;
  pv_status : pyval;
}.

(** The dictionary appended to [out] for the document [d]. *)
Definition product_view (locale : string) (d : doc) : ProductView :=
  {| pv_sku := get "sku" d;
     pv_title := localized locale "title_en" "title_zh" d;
     pv_description := localized locale "description_en" "description_zh" d;
     pv_price := get "price" d;
     pv_currency := get_default "currency" (VStr "USD") d;
     pv_media_urls := get_default "media_urls" (VList []) d;
     pv_status := get_default "status" (VStr "active") d |}.

(** [GET /api/products] *)
Definition list_products (db : option store) (locale : string)
    : outcome (list ProductView) :=
  st ← ensure_db db;
  let docs := get_documents st (collection_name Product) ∅ in
  Return (product_view locale <$> docs).

(** [POST /api/products] *)
Definition create_product (db : option store) (payload : ProductCreate)
    : outcome (store * positive) :=
  st ← ensure_db db;
  Return (create_document st (collection_name Product) (product_dump payload)).

(** ** The vocabulary of the specification *)

(** The record's date parses. *)
Definition parseable (i : doc) : Prop := parse_d (get "date" i) ≠ None.

#[local] Instance parseable_dec (i : doc) : Decision (parseable i).
Proof. unfold parseable. apply _. Defined.

(** Day [d] has at least one completed record. *)
Definition completed_on (items : list doc) (d : date) : Prop :=
  exists i, i ∈ items /\ parse_d (get "date" i) = Some d
            /\ truthy (get "completed" i) = true.

(** Day [d] has at least one record with [completed == true]. *)
Definition has_completed_record (items : list doc) (d : date) : Prop :=
  exists i, i ∈ items /\ parse_d (get "date" i) = Some d
            /\ i !! "completed" = Some (VBool true).

(** The data model's type of [completed]: a boolean, where the field is
    present. *)
Definition boolean_completed (items : list doc) : Prop :=
  forall i, i ∈ items ->
    i !! "completed" = None \/ exists b : bool, i !! "completed" = Some (VBool b).

(** The points a record carries: [int(i.get("points_earned", 0))]. *)
Definition points_of (i : doc) : outcome Z :=
  py_int (get_default "points_earned" (VInt 0) i).

Definition points_value (i : doc) : Z :=
  match points_of i with
  | Return z => z
  | Raise _ => 0
  end.

(** Every record whose date parses carries points that [int] accepts. *)
Definition points_ok (items : list doc) : Prop :=
  forall i, i ∈ items -> parseable i -> returns (points_of i).

(** Some calendar day, today or before, has no completed record. *)
Definition has_gap (items : list doc) (today : date) : Prop :=
  exists d : date, (d <= today)%positive /\ ~ completed_on items d.

(** Some calendar day, today or before, has no record with
    [completed == true]. *)
Definition has_missing_day (items : list doc) (today : date) : Prop :=
  exists d : date, (d <= today)%positive /\ ~ has_completed_record items d.

Definition sum_Z (l : list Z) : Z := foldr Z.add 0 l.

(** A value that [float] converts: a float, a bool, or an int whose
    nearest binary64 value is finite. *)
Definition numeric (v : pyval) : Prop :=
  match v with
  | VFloat _ | VBool _ => True
  | VInt z => returns (float_of_int z)
  | _ => False
  end.

(** A Python number: an [int] or a [float]. *)
Definition is_number (v : pyval) : Prop :=
  match v with
  | VInt _ | VFloat _ => True
  | _ => False
  end.

Definition numeric_item (item : doc) : Prop :=
  numeric (get_default "qty" (VInt 1) item)
  /\ numeric (get_default "price" (VInt 0) item).

(** The product [qty * price] of a line item, 0.0 if a coercion fails. *)
Definition line_amount (item : doc) : float :=
  match py_float (get_default "qty" (VInt 1) item),
        py_float (get_default "price" (VInt 0) item) with
  | Return qty, Return price => (qty * price)%float
  | _, _ => 0%float
  end.

(** [sum(amounts, 0.0)]: the amounts added from left to right. *)
Definition float_sum (amounts : list float) : float :=
  fold_left PrimFloat.add amounts 0%float.


(** *** Exact values and rounding to 2 decimal places *)

(** The number [m * 2^e]. *)
Definition magnitude (m : positive) (e : Z) : Q :=
  match e with
  | Z.neg k => Qmake (Z.pos m) (2 ^ k)
  | _ => inject_Z (Z.pos m * 2 ^ e)
  end.

(** The number that a finite binary64 value stands for. *)
Definition float_value (f : float) : option Q :=
  match Prim2SF f with
  | S754_zero _ => Some 0%Q
  | S754_finite s m e => Some (if s then - magnitude m e else magnitude m e)%Q
  | _ => None
  end.

(** The number that a quantity or a price stands for. *)
Definition number_value (v : pyval) : option Q :=
  match v with
  | VBool b => Some (if b then 1 else 0)%Q
  | VInt z => Some (inject_Z z)
  | VFloat f => float_value f
  | _ => None
  end.

(** The sum of [qty * price] over the items, as a number. *)
Definition exact_amount (item : doc) : option Q :=
  match number_value (get_default "qty" (VInt 1) item),
        number_value (get_default "price" (VInt 0) item) with
  | Some qty, Some price => Some (qty * price)%Q
  | _, _ => None
  end.

Fixpoint exact_sum (items : list doc) : option Q :=
  match items with
  | [] => Some 0%Q
  | item :: items' =>
      match exact_amount item, exact_sum items' with
      | Some amount, Some rest => Some (amount + rest)%Q
      | _, _ => None
      end
  end.

(** [n] hundredths are [q] rounded to 2 decimal places, a tie going either
    way. *)
Definition rounds_to_hundredths (q : Q) (n : Z) : Prop :=
  (Qabs (100 * q - inject_Z n) <= 1 # 2)%Q.

(** [t] is a binary64 value nearest to [q]. *)
Definition nearest_float (q : Q) (t : float) : Prop :=
  exists v : Q,
    float_value t = Some v
    /\ forall (t' : float) (v' : Q),
         float_value t' = Some v' -> (Qabs (v - q) <= Qabs (v' - q))%Q.

(** [t] is the sum of [qty * price] over the items, rounded to 2 decimal
    places. *)
Definition rounded_exact_sum (items : list doc) (t : float) : Prop :=
  exists (q : Q) (n : Z),
    exact_sum items = Some q /\ rounds_to_hundredths q n /\ nearest_float (n # 100) t.

(** [n] is the integer nearest to [q], the even one of the two at a tie. *)
Definition nearest_even (q : Q) (n : Z) : Prop :=
  (Qabs (q - inject_Z n) < 1 # 2)%Q
  \/ ((Qabs (q - inject_Z n) == 1 # 2)%Q /\ Z.even n = true).

(** The decimal [n / 100] as a binary64 value with the sign [s]: the
    quotient of the integers, rounded once. *)
Definition hundredths_float (s : bool) (n : Z) : float :=
  match n with
  | Z.pos p => SF2Prim (SFdiv prec emax (S754_finite s p 0) (S754_finite false 100 0))
  | _ => SF2Prim (S754_zero s)
  end.

(** [t] is the binary64 value [x] rounded to 2 decimal places: for a finite
    [x] other than zero, [t] is [n / 100] with the sign of [x], where [n] is
    the integer nearest to 100 times the magnitude of [x], ties to even; a
    zero, an infinity and NaN are left as they are. *)
Definition rounded_float (x t : float) : Prop :=
  match Prim2SF x with
  | S754_finite s m e =>
      exists n : Z, nearest_even (100 * magnitude m e) n /\ t = hundredths_float s n
  | _ => t = x
  end.

(** The records that [progress_stats] fetches for a user. *)
Definition user_records (st : store) (user_id : string) : list doc :=
  get_documents st (collection_name Progress) {["user_id" := user_id]}.

(** The answer built from the devotional [d], with the given date. *)
Definition devotional_view (date_field : pyval) (locale : string) (d : doc)
    : DevotionalView :=
  {| dv_date := date_field;
     dv_title := localized locale "title_en" "title_zh" d;
     dv_passage := localized locale "passage_en" "passage_zh" d;
     dv_content := localized locale "content_en" "content_zh" d;
     dv_reflection_prompt :=
       localized locale "reflection_prompt_en" "reflection_prompt_zh" d |}.

(** The document that [create_devotional] stores. *)
Definition devotional_record (payload : DevotionalCreate) : doc :=
  <["date" := VStr (isoformat (dc_date payload))]> (devotional_dump payload).

(** No document of the list carries the date [qdate]. *)
Definition none_dated (qdate : string) (docs : list doc) : Prop :=
  forall d : doc, d ∈ docs -> d !! "date" <> Some (VStr qdate).

(** The record that [complete_today] builds for a user and a day. *)
Definition completion_record (user_id : string) (target : date) : doc :=
  <["user_id" := VStr user_id]>
  (<["date" := VStr (isoformat target)]>
  (<["completed" := VBool true]>
  (<["points_earned" := VInt 10]> ∅))).

(** Two records that agree on the three fields [progress_stats] reads. *)
Definition same_progress_fields (i j : doc) : Prop :=
  i !! "date" = j !! "date" /\ i !! "completed" = j !! "completed"
  /\ i !! "points_earned" = j !! "points_earned".

(** [float] accepts the quantity and the price of the item. *)
Definition convertible_item (item : doc) : Prop :=
  returns (py_float (get_default "qty" (VInt 1) item))
  /\ returns (py_float (get_default "price" (VInt 0) item)).

(** Further sample data: a store where user [u1] has completed
    2025-01-01, a devotional for 2025-01-02 and a second one for the same
    day, and a hidden product. *)
Definition store_with_jan_01 : store :=
  (create_document empty_store (collection_name Progress) jan_01).1.

Definition complete_u1 : CompleteRequest := {| cr_user_id := "u1"; cr_date := None |}.

Definition sample_devotional : DevotionalCreate :=
  {| dc_date := day_2025_01_02;
     dc_title_en := "Rest"; dc_title_zh := "安息";
     dc_passage_en := Some "Psalm 23"; dc_passage_zh := None;
     dc_content_en := "Be still."; dc_content_zh := "要安静。";
     dc_reflection_prompt_en := None; dc_reflection_prompt_zh := None |}.

Definition later_devotional : DevotionalCreate :=
  {| dc_date := day_2025_01_02;
     dc_title_en := "Hope"; dc_title_zh := "盼望";
     dc_passage_en := None; dc_passage_zh := None;
     dc_content_en := "Wait."; dc_content_zh := "等候。";
     dc_reflection_prompt_en := None; dc_reflection_prompt_zh := None |}.

Definition store_with_devotional : store :=
  (create_document empty_store (collection_name Devotional)
     (devotional_record sample_devotional)).1.

Definition hidden_product : ProductCreate :=
  {| pc_sku := "sku-1"; pc_title_en := "Journal"; pc_title_zh := "日记";
     pc_description_en := None; pc_description_zh := None;
     pc_price := 9.5%float; pc_currency := "USD";
     pc_categories := []; pc_media_urls := ["a.png"];
     pc_attributes := ∅; pc_status := "hidden" |}.

(** The documents kept by the comprehension over [parse_d], sorted, and
    the set [completed_dates] built from them. *)
Definition kept (items : list doc) : list doc :=
  sort_by_date (filter (fun i => parse_d (get "date" i) ≠ None) items).

Definition completed_dates_of (items : list doc) : gset (option date) :=
  list_to_set ((fun i => parse_d (get "date" i))
                 <$> filter (fun i => truthy (get "completed" i) = true) (kept items)).

(** ** Dates and their ISO strings *)

Lemma check_upto_spec f (n : N) :
  (check_upto f n).1 = Z.of_N n
  /\ ((check_upto f n).2 = true -> forall r, 0 <= r < Z.of_N n -> f r = true).
Proof.
  unfold check_upto. induction n as [|n [IH1 IH2]] using N.peano_ind.
  - simpl. split; [done|]. intros _ r Hr. lia.
  - rewrite N.iter_succ. simpl. rewrite IH1. split; [lia|].
    intros H r Hr. apply andb_true_iff in H as [H1 H2].
    destruct (decide (r = Z.of_N n)) as [->|Hne]; [done|].
    apply IH2; [done|lia].
Qed.

Lemma month_day_checked (leapyear : bool) (n : Z) :
  0 <= n < 365 -> month_day_ok leapyear n = true.
Proof.
  intros Hn.
  assert (H : (check_upto (month_day_ok leapyear) 365).2 = true)
    by (by destruct leapyear; vm_compute).
  by apply (proj2 (check_upto_spec _ 365) H).
Qed.

Lemma ord2ymd_unfold (ord : date) :
  ord2ymd ord =
    let n0 := Z.pos ord - 1 in
    let a := n0 / 146097 in
    let r1 := n0 mod 146097 in
    let b := r1 / 36524 in
    let r2 := r1 mod 36524 in
    let c := r2 / 1461 in
    let r3 := r2 mod 1461 in
    let e := r3 / 365 in
    let n := r3 mod 365 in
    let year := a * 400 + 1 + b * 100 + c * 4 + e in
    if (e =? 4) || (b =? 4) then (year - 1, 12, 31)
    else
      let '(m, d) := month_day n ((e =? 3) && (negb (c =? 24) || (b =? 3))) in
      (year, m, d).
Proof.
  unfold ord2ymd, month_day. cbv zeta.
  destruct (_ || _); [done|]. by destruct (_ <? _).
Qed.

Lemma is_leap_cycle a b c e :
  0 <= b <= 3 -> 0 <= c <= 24 -> 0 <= e <= 3 ->
  is_leap (a * 400 + 1 + b * 100 + c * 4 + e)
  = (e =? 3) && (negb (c =? 24) || (b =? 3)).
Proof.
  intros Hb Hc He. unfold is_leap.
  repeat case Z.eqb_spec; intros; simpl; try reflexivity; exfalso;
    Z.div_mod_to_equations; lia.
Qed.

Lemma days_before_year_cycle a b c e :
  0 <= b <= 3 -> 0 <= c <= 24 -> 0 <= e <= 3 ->
  days_before_year (a * 400 + 1 + b * 100 + c * 4 + e)
  = a * 146097 + b * 36524 + c * 1461 + e * 365.
Proof.
  intros Hb Hc He. unfold days_before_year. cbv zeta.
  Z.div_mod_to_equations. lia.
Qed.

Lemma ord2ymd_valid (ord : date) :
  forall y m d, ord2ymd ord = (y, m, d) ->
  1 <= y /\ 1 <= m <= 12 /\ 1 <= d <= days_in_month y m
  /\ ymd2ord y m d = Z.pos ord.
Proof.
  intros y m d. rewrite ord2ymd_unfold. cbv zeta.
  set (n0 := Z.pos ord - 1).
  set (a := n0 / 146097). set (r1 := n0 mod 146097).
  set (b := r1 / 36524). set (r2 := r1 mod 36524).
  set (c := r2 / 1461). set (r3 := r2 mod 1461).
  set (e := r3 / 365). set (n := r3 mod 365).
  assert (Hfacts : 0 <= a /\ 0 <= b <= 4 /\ 0 <= c <= 24 /\ 0 <= e <= 4
                   /\ 0 <= n < 365
                   /\ n0 = a * 146097 + b * 36524 + c * 1461 + e * 365 + n
                   /\ (b = 4 -> c = 0 /\ e = 0 /\ n = 0)
                   /\ (e = 4 -> n = 0 /\ c <= 23)).
  { subst a r1 b r2 c r3 e n. assert (0 <= n0) by (subst n0; lia).
    clearbody n0. Z.div_mod_to_equations. lia. }
  destruct Hfacts as (Ha & Hb & Hc & He & Hn & Hn0 & Hb4 & He4).
  assert (Hord : Z.pos ord = n0 + 1) by (subst n0; lia).
  clearbody a b c e n n0. clear r1 r2 r3.
  destruct ((e =? 4) || (b =? 4)) eqn:Hspecial.
  - intros [= <- <- <-].
    assert (Hcase : exists b' c',
               0 <= b' <= 3 /\ 0 <= c' <= 23 + (if b =? 4 then 1 else 0)
               /\ (c' = 24 -> b' = 3)
               /\ a * 400 + 1 + b * 100 + c * 4 + e - 1
                  = a * 400 + 1 + b' * 100 + c' * 4 + 3
               /\ n0 = a * 146097 + b' * 36524 + c' * 1461 + 3 * 365 + 365).
    { apply orb_true_iff in Hspecial as [H|H]; apply Z.eqb_eq in H.
      - destruct (He4 H) as [-> Hc23].
        assert (b <> 4) by (intros Hb'; destruct (Hb4 Hb'); lia).
        exists b, c. destruct (Z.eqb_spec b 4); [done|]. repeat split; lia.
      - destruct (Hb4 H) as (-> & -> & ->). subst b.
        exists 3, 24. simpl. repeat split; lia. }
    destruct Hcase as (b' & c' & Hb' & Hc' & Hc24 & -> & ->).
    assert (Hc'' : 0 <= c' <= 24) by (destruct (b =? 4); lia).
    assert (Hleap : is_leap (a * 400 + 1 + b' * 100 + c' * 4 + 3) = true).
    { rewrite is_leap_cycle by lia. simpl.
      destruct (Z.eqb_spec c' 24) as [Hc24'|_]; [|done].
      simpl. apply Z.eqb_eq. by apply Hc24. }
    split; [lia|]. split; [lia|]. split; [by vm_compute|].
    unfold ymd2ord, days_before_month. rewrite Hleap.
    rewrite days_before_year_cycle by lia. simpl. lia.
  - apply orb_false_iff in Hspecial as [He' Hb'].
    apply Z.eqb_neq in He', Hb'.
    set (leapyear := (e =? 3) && (negb (c =? 24) || (b =? 3))).
    pose proof (month_day_checked leapyear n Hn) as Hok.
    unfold month_day_ok in Hok.
    destruct (month_day n leapyear) as [m' d'].
    intros [= <- <- <-].
    repeat (apply andb_true_iff in Hok as [Hok ?]).
    assert (Hleap : is_leap (a * 400 + 1 + b * 100 + c * 4 + e) = leapyear)
      by (apply is_leap_cycle; lia).
    unfold days_in_month, ymd2ord, days_before_month. rewrite Hleap.
    rewrite days_before_year_cycle by lia. lia.
Qed.

Lemma days_before_month_nonneg y m : 1 <= m <= 12 -> 0 <= days_before_month y m.
Proof.
  intros Hm. unfold days_before_month.
  assert (m = 1 \/ m = 2 \/ m = 3 \/ m = 4 \/ m = 5 \/ m = 6 \/ m = 7 \/ m = 8
          \/ m = 9 \/ m = 10 \/ m = 11 \/ m = 12) as Hcases by lia.
  repeat destruct Hcases as [-> | Hcases]; try subst m; simpl;
    destruct (is_leap y); lia.
Qed.

Lemma ord2ymd_year_max (ord : date) y m d :
  ord2ymd ord = (y, m, d) -> (ord <= 3652059)%positive -> y <= 9999.
Proof.
  intros H Hmax. apply ord2ymd_valid in H as (Hy & Hm & Hd & Hord).
  pose proof (days_before_month_nonneg y m Hm) as Hdbm.
  assert (Ho : Z.pos ord <= 3652059) by exact Hmax.
  unfold ymd2ord in Hord. rewrite <- Hord in Ho. clear Hord Hmax Hm.
  set (dbm := days_before_month y m) in *. clearbody dbm.
  destruct Hd as [Hd _].
  unfold days_before_year in Ho. cbv zeta in Ho.
  destruct (Z.le_gt_cases y 9999) as [|Hbig]; [done|exfalso].
  Z.div_mod_to_equations. lia.
Qed.

Lemma mk_date_ord2ymd (ord : date) y m d :
  ord2ymd ord = (y, m, d) -> (ord <= 3652059)%positive -> mk_date y m d = Some ord.
Proof.
  intros H Hmax. pose proof (ord2ymd_year_max _ _ _ _ H Hmax) as Hy9.
  apply ord2ymd_valid in H as (Hy & [Hm1 Hm12] & [Hd1 Hd] & Hord).
  unfold mk_date. rewrite Hord.
  apply Z.leb_le in Hy, Hy9, Hm1, Hm12, Hd1, Hd.
  by rewrite Hy, Hy9, Hm1, Hm12, Hd1, Hd.
Qed.

(** *** Parsing what [isoformat] prints *)

Lemma utf8_decode_ascii (c : ascii) (l : list ascii) :
  (N_of_ascii c <? 128)%N = true ->
  utf8_decode (c :: l) = N_of_ascii c :: utf8_decode l.
Proof. intros H. cbn [utf8_decode]. by rewrite H. Qed.

Lemma digit_char_cases n :
  exists v, 0 <= v <= 9 /\ n mod 10 = v
            /\ digit_char n = ascii_of_N (48 + Z.to_N v).
Proof.
  exists (n mod 10). pose proof (Z.mod_pos_bound n 10 ltac:(lia)). split; [lia|done].
Qed.

Lemma digit_char_ascii n : (N_of_ascii (digit_char n) <? 128)%N = true.
Proof.
  destruct (digit_char_cases n) as (v & Hv & _ & ->).
  assert (v = 0 \/ v = 1 \/ v = 2 \/ v = 3 \/ v = 4 \/ v = 5 \/ v = 6 \/ v = 7
          \/ v = 8 \/ v = 9) as Hcases by lia.
  repeat destruct Hcases as [-> | Hcases]; try subst v; reflexivity.
Qed.

Lemma digit_of_digit_char n : digit_of (N_of_ascii (digit_char n)) = Some (n mod 10).
Proof.
  destruct (digit_char_cases n) as (v & Hv & -> & ->).
  assert (v = 0 \/ v = 1 \/ v = 2 \/ v = 3 \/ v = 4 \/ v = 5 \/ v = 6 \/ v = 7
          \/ v = 8 \/ v = 9) as Hcases by lia.
  repeat destruct Hcases as [-> | Hcases]; try subst v; reflexivity.
Qed.

Lemma match_Y_digits y rest :
  0 <= y <= 9999 ->
  match_Y (N_of_ascii (digit_char (y / 1000)) :: N_of_ascii (digit_char (y / 100))
             :: N_of_ascii (digit_char (y / 10)) :: N_of_ascii (digit_char y) :: rest)
  = Some (y, rest).
Proof.
  intros Hy. unfold match_Y. rewrite !digit_of_digit_char.
  do 2 f_equal. Z.div_mod_to_equations. lia.
Qed.

Lemma match_m_digits m rest :
  1 <= m <= 12 ->
  match_m (N_of_ascii (digit_char (m / 10)) :: N_of_ascii (digit_char m) :: 45%N :: rest)
  = Some (m, 45%N :: rest).
Proof.
  intros Hm.
  assert (m = 1 \/ m = 2 \/ m = 3 \/ m = 4 \/ m = 5 \/ m = 6 \/ m = 7 \/ m = 8
          \/ m = 9 \/ m = 10 \/ m = 11 \/ m = 12) as Hcases by lia.
  repeat destruct Hcases as [-> | Hcases]; try subst m; reflexivity.
Qed.

Lemma match_d_digits d :
  1 <= d <= 31 ->
  match_d [N_of_ascii (digit_char (d / 10)); N_of_ascii (digit_char d)] = Some (d, []).
Proof.
  intros Hd.
  assert (Hin : In d (map Z.of_nat (seq 1 31))).
  { apply in_map_iff. exists (Z.to_nat d). split; [lia|]. apply in_seq. lia. }
  simpl in Hin.
  repeat destruct Hin as [<- | Hin]; try reflexivity. destruct Hin.
Qed.

Lemma days_in_month_le_31 y m : days_in_month y m <= 31.
Proof.
  unfold days_in_month. destruct (_ && _); [lia|].
  destruct (Z.to_nat m) as [|[|[|[|[|[|[|[|[|[|[|[|[|k]]]]]]]]]]]]]; simpl; try lia.
  destruct k; simpl; lia.
Qed.

(** The string that [isoformat] prints for a date parses back to the date. *)
Lemma strptime_isoformat (d : date) :
  (d <= 3652059)%positive -> strptime_ymd (isoformat d) = Some d.
Proof.
  intros Hmax. unfold isoformat.
  destruct (ord2ymd d) as [[y m] dd] eqn:E.
  pose proof (mk_date_ord2ymd _ _ _ _ E Hmax) as Hmk.
  pose proof (ord2ymd_year_max _ _ _ _ E Hmax) as Hy.
  apply ord2ymd_valid in E as (Hy1 & Hm & [Hd1 Hd] & _).
  pose proof (Z.le_trans _ _ _ Hd (days_in_month_le_31 y m)) as Hd31.
  unfold strptime_ymd. rewrite list_ascii_of_string_of_list_ascii.
  rewrite !utf8_decode_ascii by (apply digit_char_ascii || reflexivity).
  rewrite (match_Y_digits y _ (conj (Z.le_trans 0 1 y ltac:(done) Hy1) Hy)).
  change (N_of_ascii "-") with 45%N. cbn [match_dash N.eqb Pos.eqb].
  rewrite (match_m_digits m _ Hm).
  cbn [match_dash N.eqb Pos.eqb utf8_decode].
  by rewrite (match_d_digits dd (conj Hd1 Hd31)).
Qed.

(** ** Sorting keeps the records *)

Lemma insert_sorted_perm x l : insert_sorted x l ≡ₚ x :: l.
Proof.
  induction l as [|y l IH]; simpl; [done|].
  destruct (key_lt _ _); [|done].
  rewrite IH. apply Permutation_swap.
Qed.

Lemma sort_by_date_perm l : sort_by_date l ≡ₚ l.
Proof.
  induction l as [|x l IH]; simpl; [done|].
  by rewrite insert_sorted_perm, IH.
Qed.

Lemma kept_perm items :
  kept items ≡ₚ filter (fun i => parse_d (get "date" i) ≠ None) items.
Proof. apply sort_by_date_perm. Qed.

Lemma elem_of_kept items i : i ∈ kept items <-> i ∈ items /\ parseable i.
Proof.
  unfold kept, parseable. rewrite sort_by_date_perm, list_elem_of_filter. tauto.
Qed.

Lemma kept_proper items1 items2 : items1 ≡ₚ items2 -> kept items1 ≡ₚ kept items2.
Proof. intros H. rewrite !kept_perm. by rewrite H. Qed.

(** ** The set of completed days *)

Lemma elem_of_completed_dates items (o : option date) :
  o ∈ completed_dates_of items <->
  exists d, o = Some d /\ completed_on items d.
Proof.
  unfold completed_dates_of, completed_on.
  rewrite elem_of_list_to_set, list_elem_of_fmap. split.
  - intros (i & -> & Hi). apply list_elem_of_filter in Hi as [Ht Hi].
    apply elem_of_kept in Hi as [Hi Hp].
    destruct (parse_d (get "date" i)) as [d|] eqn:E; [|by destruct Hp].
    exists d. split; [done|]. by exists i.
  - intros (d & -> & i & Hi & Hd & Ht). exists i. split; [done|].
    apply list_elem_of_filter. split; [done|].
    apply elem_of_kept. split; [done|]. unfold parseable. by rewrite Hd.
Qed.

Lemma completed_dates_Some items d :
  Some d ∈ completed_dates_of items <-> completed_on items d.
Proof.
  rewrite elem_of_completed_dates. split.
  - by intros (d' & [= <-] & H).
  - intros H. by exists d.
Qed.

Lemma completed_dates_None items : None ∉ completed_dates_of items.
Proof. rewrite elem_of_completed_dates. by intros (d & ? & _). Qed.

Lemma completed_on_perm items1 items2 d :
  items1 ≡ₚ items2 -> completed_on items1 d -> completed_on items2 d.
Proof.
  intros Hp (i & Hi & H). exists i. split; [|done]. by rewrite <- Hp.
Qed.

Lemma completed_dates_perm items1 items2 :
  items1 ≡ₚ items2 -> completed_dates_of items1 = completed_dates_of items2.
Proof.
  intros Hp. apply set_eq. intros o. rewrite !elem_of_completed_dates.
  split; intros (d & -> & H); exists d; (split; [done|]).
  - by apply (completed_on_perm items1).
  - by apply (completed_on_perm items2).
Qed.

Lemma all_Some_fmap {A : Type} (l : list (option A)) :
  Forall is_Some l -> exists l', l = Some <$> l'.
Proof.
  induction 1 as [|o l [a ->] _ [l' ->]]; [by exists []|]. by exists (a :: l').
Qed.

(** The days of the set, without repetition. *)
Lemma completed_dates_listing items :
  exists days : list date,
    NoDup days /\ (forall d, d ∈ days <-> completed_on items d)
    /\ size (completed_dates_of items) = length days.
Proof.
  set (cd := completed_dates_of items).
  destruct (all_Some_fmap (elements cd)) as [days Hdays].
  { apply Forall_forall. intros [d|] Ho; [by eexists|].
    apply elem_of_elements in Ho. by apply completed_dates_None in Ho. }
  exists days. split; [|split].
  - apply (NoDup_fmap_1 Some). rewrite <- Hdays. apply NoDup_elements.
  - intros d. rewrite <- completed_dates_Some. fold cd.
    rewrite <- elem_of_elements, Hdays. symmetry. apply (list_elem_of_fmap_inj Some).
  - unfold size, set_size. simpl. fold cd. by rewrite Hdays, length_fmap.
Qed.

(** ** The streak loop *)

Lemma streak_loop_step cd (p : date) s :
  streak_loop cd p s =
    if decide (Some p ∈ cd) then
      if decide (p = 1%positive) then Raise OverflowError
      else streak_loop cd (Pos.pred p) (s + 1)
    else Return s.
Proof.
  rewrite streak_loop_equation_1. simpl.
  destruct (decide (Some p ∈ cd)); simpl; [|done].
  by destruct (decide (p = 1%positive)).
Qed.

(** What the loop returns: it counted the days from [p] downwards that are
    in the set, and stopped on a day that is not. *)
Lemma streak_loop_walk cd (p : date) : forall s r,
  streak_loop cd p s = Return r ->
  s <= r /\ r - s < Z.pos p
  /\ (forall d : date, Z.pos p - (r - s) < Z.pos d <= Z.pos p -> Some d ∈ cd)
  /\ (forall d : date, Z.pos d = Z.pos p - (r - s) -> Some d ∉ cd).
Proof.
  induction p as [|q IH] using Pos.peano_ind; intros s r; rewrite streak_loop_step.
  - destruct (decide (Some 1%positive ∈ cd)) as [Hin|Hout];
      [by destruct (decide (1%positive = 1%positive))|].
    intros [= <-]. repeat split; try lia.
    intros d Hd. assert (d = 1%positive) as -> by lia. done.
  - destruct (decide (Some (Pos.succ q) ∈ cd)) as [Hin|Hout].
    + destruct (decide (Pos.succ q = 1%positive)) as [E|_]; [lia|].
      rewrite Pos.pred_succ. intros H. apply IH in H as (H1 & H2 & H3 & H4).
      repeat split; try lia.
      * intros d Hd. destruct (decide (d = Pos.succ q)) as [->|Hne]; [done|].
        apply H3. lia.
      * intros d Hd. apply H4. lia.
    + intros [= <-]. repeat split; try lia.
      intros d Hd. assert (d = Pos.succ q) as -> by lia. done.
Qed.

(** The loop returns when some day on the way down is not in the set. *)
Lemma streak_loop_returns cd (p : date) : forall s,
  (exists d : date, (d <= p)%positive /\ Some d ∉ cd) ->
  returns (streak_loop cd p s).
Proof.
  induction p as [|q IH] using Pos.peano_ind; intros s (d & Hd & Hout);
    rewrite streak_loop_step.
  - assert (d = 1%positive) as -> by lia.
    destruct (decide (Some 1%positive ∈ cd)); [done|]. by eexists.
  - destruct (decide (Some (Pos.succ q) ∈ cd)) as [Hin|_]; [|by eexists].
    destruct (decide (Pos.succ q = 1%positive)) as [E|_]; [lia|].
    rewrite Pos.pred_succ. apply IH. exists d. split; [|done].
    destruct (decide (d = Pos.succ q)) as [->|Hne]; [done|lia].
Qed.

(** Without such a day the loop walks past 0001-01-01. *)
Lemma streak_loop_overflow cd (p : date) : forall s,
  (forall d : date, (d <= p)%positive -> Some d ∈ cd) ->
  streak_loop cd p s = Raise OverflowError.
Proof.
  induction p as [|q IH] using Pos.peano_ind; intros s Hall;
    rewrite streak_loop_step.
  - destruct (decide (Some 1%positive ∈ cd)) as [_|Hout];
      [by destruct (decide (1%positive = 1%positive))|].
    destruct Hout. apply Hall. lia.
  - destruct (decide (Some (Pos.succ q) ∈ cd)) as [_|Hout].
    + destruct (decide (Pos.succ q = 1%positive)) as [E|_]; [lia|].
      rewrite Pos.pred_succ. apply IH. intros d Hd. apply Hall. lia.
    + destruct Hout. apply Hall. lia.
Qed.

(** [n] consecutive days of a set are [n] of its elements. *)
Lemma run_le_size (n : nat) : forall (cd : gset (option date)) (p : date),
  Z.of_nat n <= Z.pos p ->
  (forall d : date, Z.pos p - Z.of_nat n < Z.pos d <= Z.pos p -> Some d ∈ cd) ->
  (n <= size cd)%nat.
Proof.
  induction n as [|n IH]; intros cd p Hn Hrun; [lia|].
  assert (Hp : Some p ∈ cd) by (apply Hrun; lia).
  assert (Hsz : size cd = S (size (cd ∖ {[Some p]}))).
  { rewrite size_difference by set_solver. rewrite size_singleton.
    assert (size cd <> 0%nat); [|lia].
    intros H0. apply size_empty_iff in H0. set_solver. }
  rewrite Hsz. apply le_n_S.
  destruct n as [|n]; [lia|].
  apply (IH _ (Pos.pred p)); [lia|].
  intros d Hd. apply elem_of_difference. split; [apply Hrun; lia|].
  rewrite elem_of_singleton. intros [= ->]. lia.
Qed.

Lemma streak_loop_le_size cd (p : date) s r :
  streak_loop cd p s = Return r -> r - s <= Z.of_nat (size cd).
Proof.
  intros H. apply streak_loop_walk in H as (H1 & H2 & H3 & _).
  pose proof (run_le_size (Z.to_nat (r - s)) cd p) as Hle.
  rewrite Z2Nat.id in Hle by lia.
  specialize (Hle ltac:(lia) H3). lia.
Qed.

(** ** The sum of points *)

Lemma sum_Z_cons z l : sum_Z (z :: l) = z + sum_Z l.
Proof. reflexivity. Qed.

Lemma sum_Z_app l1 l2 : sum_Z (l1 ++ l2) = sum_Z l1 + sum_Z l2.
Proof.
  induction l1 as [|z l1 IH]; [done|].
  rewrite <- app_comm_cons, !sum_Z_cons, IH. lia.
Qed.

Lemma sum_Z_perm l1 l2 : l1 ≡ₚ l2 -> sum_Z l1 = sum_Z l2.
Proof.
  induction 1 as [|z l1 l2 _ IH|y z l|l1 l2 l3 _ IH1 _ IH2];
    rewrite ?sum_Z_cons; [done|lia|lia|congruence].
Qed.

Lemma sum_points_spec items : forall acc r,
  sum_points acc items = Return r <->
  Forall (fun i => returns (points_of i)) items
  /\ r = acc + sum_Z (points_value <$> items).
Proof.
  induction items as [|i items IH]; intros acc r.
  - simpl. split.
    + intros [= <-]. split; [constructor|unfold sum_Z; simpl; lia].
    + intros [_ ->]. f_equal. unfold sum_Z; simpl; lia.
  - rewrite fmap_cons, sum_Z_cons. unfold points_value at 1.
    cbn [sum_points]. fold (points_of i).
    destruct (points_of i) as [z|e] eqn:E; simpl.
    + rewrite IH. split.
      * intros [HF ->]. split; [|lia]. constructor; [by exists z|done].
      * intros [HF ->]. split; [|lia]. by inversion HF.
    + split; [done|]. intros [HF _]. inversion HF as [|? ? [z Hz] _]. congruence.
Qed.

(** ** When a day is missing *)

Lemma gap_or_full (cd : gset (option date)) (p : date) :
  (exists d : date, (d <= p)%positive /\ Some d ∉ cd)
  \/ (forall d : date, (d <= p)%positive -> Some d ∈ cd).
Proof.
  induction p as [|q IH] using Pos.peano_ind.
  - destruct (decide (Some 1%positive ∈ cd)) as [Hin|Hout].
    + right. intros d Hd. by assert (d = 1%positive) as -> by lia.
    + left. exists 1%positive. split; [lia|done].
  - destruct (decide (Some (Pos.succ q) ∈ cd)) as [Hin|Hout].
    + destruct IH as [(d & Hd & Hout)|Hall].
      * left. exists d. split; [lia|done].
      * right. intros d Hd.
        destruct (decide (d = Pos.succ q)) as [->|Hne]; [done|]. apply Hall. lia.
    + left. exists (Pos.succ q). split; [lia|done].
Qed.

Lemma size_list_to_set_le (l : list (option date)) :
  (size (list_to_set l : gset (option date)) <= length l)%nat.
Proof.
  unfold size, set_size. simpl. apply submseteq_length, NoDup_submseteq.
  - apply NoDup_elements.
  - intros o Ho. by apply elem_of_elements, elem_of_list_to_set in Ho.
Qed.

Lemma size_completed_dates_le items :
  (size (completed_dates_of items) <= length items)%nat.
Proof.
  unfold completed_dates_of. etrans; [apply size_list_to_set_le|].
  rewrite length_fmap. etrans; [apply length_filter|].
  rewrite kept_perm. apply length_filter.
Qed.

(** A user with fewer records than there are days from 0001-01-01 to today
    has a day without a completed record. *)
Lemma few_records_has_gap items (today : date) :
  Z.of_nat (length items) < Z.pos today -> has_gap items today.
Proof.
  intros Hlen.
  destruct (gap_or_full (completed_dates_of items) today) as [(d & Hd & Hout)|Hall].
  - exists d. split; [done|]. by rewrite <- completed_dates_Some.
  - pose proof (run_le_size (Pos.to_nat today) (completed_dates_of items) today) as Hrun.
    pose proof (size_completed_dates_le items).
    assert (Pos.to_nat today <= size (completed_dates_of items))%nat; [|lia].
    apply Hrun; [lia|]. intros d Hd. apply Hall. lia.
Qed.

(** ** Well-typed fields *)

(** For a boolean [completed] the test of the comprehension is
    [completed == True]. *)
Lemma truthy_VBool b : truthy (VBool b) = b.
Proof. reflexivity. Qed.

(** For an integer [points_earned] the points are the field itself, and 0
    when the field is absent. *)
Lemma points_of_VInt (i : doc) z :
  i !! "points_earned" = Some (VInt z) -> points_of i = Return z /\ points_value i = z.
Proof. intros H. unfold points_value, points_of, get_default. by rewrite H. Qed.

Lemma points_of_absent (i : doc) :
  i !! "points_earned" = None -> points_of i = Return 0 /\ points_value i = 0.
Proof. intros H. unfold points_value, points_of, get_default. by rewrite H. Qed.

(** ** The stats computation, step by step *)

Lemma compute_stats_eq items today :
  compute_stats items today =
    streak ← streak_loop (completed_dates_of items) today 0;
    total ← sum_points 0 (kept items);
    Return {| days_completed := Z.of_nat (size (completed_dates_of items));
              current_streak := streak;
              total_points := total |}.
Proof. reflexivity. Qed.

Lemma compute_stats_Return items today st :
  compute_stats items today = Return st <->
  streak_loop (completed_dates_of items) today 0 = Return (current_streak st)
  /\ sum_points 0 (kept items) = Return (total_points st)
  /\ days_completed st = Z.of_nat (size (completed_dates_of items)).
Proof.
  rewrite compute_stats_eq.
  destruct (streak_loop _ today 0) as [k|e]; simpl; [|by split; [|intros [? _]]].
  destruct (sum_points 0 (kept items)) as [t|e]; simpl; [|by split; [|intros (_ & ? & _)]].
  destruct st as [dc cs tp]; simpl. split.
  - by intros [= <- <- <-].
  - by intros ([= ->] & [= ->] & ->).
Qed.

Lemma points_ok_kept items :
  points_ok items <-> Forall (fun i => returns (points_of i)) (kept items).
Proof.
  rewrite Forall_forall. unfold points_ok. split.
  - intros H i Hi. apply elem_of_kept in Hi as [Hi Hp]. by apply H.
  - intros H i Hi Hp. apply H. by apply elem_of_kept.
Qed.

Lemma has_gap_dates items today :
  has_gap items today <->
  exists d : date, (d <= today)%positive /\ Some d ∉ completed_dates_of items.
Proof.
  unfold has_gap. split; intros (d & Hd & H); exists d; (split; [done|]);
    by rewrite completed_dates_Some in *.
Qed.

Lemma kept_points items :
  sum_Z (points_value <$> kept items)
  = sum_Z (points_value <$> filter parseable items).
Proof. apply sum_Z_perm. apply fmap_Permutation, kept_perm. Qed.

(** The computation returns on records whose points are integers, unless
    every day back to 0001-01-01 is completed. *)
Lemma compute_stats_returns items today :
  points_ok items -> has_gap items today ->
  exists st, compute_stats items today = Return st
    /\ streak_loop (completed_dates_of items) today 0 = Return (current_streak st)
    /\ total_points st = sum_Z (points_value <$> filter parseable items)
    /\ days_completed st = Z.of_nat (size (completed_dates_of items)).
Proof.
  intros Hp Hg. apply points_ok_kept in Hp. apply has_gap_dates in Hg.
  destruct (streak_loop_returns _ today 0 Hg) as [k Hk].
  exists {| days_completed := Z.of_nat (size (completed_dates_of items));
            current_streak := k;
            total_points := sum_Z (points_value <$> filter parseable items) |}.
  simpl. split; [|done].
  apply compute_stats_Return. simpl. split; [done|]. split; [|done].
  apply sum_points_spec. split; [done|]. rewrite kept_points. lia.
Qed.

Lemma compute_stats_gap items today st :
  compute_stats items today = Return st -> has_gap items today.
Proof.
  intros H. apply compute_stats_Return in H as (H & _).
  apply streak_loop_walk in H as (H1 & H2 & _ & H4).
  exists (Z.to_pos (Z.pos today - current_streak st)). split; [lia|].
  rewrite <- completed_dates_Some. apply H4. lia.
Qed.

(** What a returned result says about the records. *)
Lemma compute_stats_inv items today st :
  compute_stats items today = Return st ->
  points_ok items /\ has_gap items today
  /\ total_points st = sum_Z (points_value <$> filter parseable items)
  /\ days_completed st = Z.of_nat (size (completed_dates_of items)).
Proof.
  intros H. pose proof (compute_stats_gap _ _ _ H) as Hg.
  apply compute_stats_Return in H as (_ & Hsum & Hdc).
  apply sum_points_spec in Hsum as [HF Htp].
  split; [by apply points_ok_kept|]. split; [done|]. split; [|done].
  rewrite Htp, kept_points. lia.
Qed.

(** ** The properties of the stats computation *)

(** On records typed as the data model has them, the days the computation
    takes for completed are the days with a record whose [completed] is
    [True]. *)
Lemma completed_on_boolean (items : list doc) (d : date) :
  boolean_completed items -> completed_on items d <-> has_completed_record items d.
Proof.
  intros Hb. unfold completed_on, has_completed_record.
  split; intros (i & Hi & Hd & Hc); exists i; (split; [done|]); (split; [done|]).
  - unfold get in Hc. destruct (Hb i Hi) as [Hn | [b Hn]]; rewrite Hn in Hc |- *.
    + discriminate Hc.
    + simpl in Hc. by rewrite Hc.
  - unfold get. by rewrite Hc.
Qed.

Lemma has_gap_boolean (items : list doc) (today : date) :
  boolean_completed items -> has_gap items today <-> has_missing_day items today.
Proof.
  intros Hb. unfold has_gap, has_missing_day.
  split; intros (d & Hd & Hn); exists d; (split; [done|]);
    by rewrite ?completed_on_boolean in * by done.
Qed.

(** What the loop returns, in terms of the days it takes for completed. *)
Lemma current_streak_shape (items : list doc) (today : date) (st : StatsResponse) :
  compute_stats items today = Return st ->
  0 <= current_streak st < Z.pos today
  /\ (forall d : date,
        Z.pos today - current_streak st < Z.pos d <= Z.pos today ->
        completed_on items d)
  /\ (forall d : date,
        Z.pos d = Z.pos today - current_streak st -> ~ completed_on items d).
Proof.
  intros H. apply compute_stats_Return in H as (H & _).
  apply streak_loop_walk in H as (H1 & H2 & H3 & H4).
  rewrite Z.sub_0_r in *. split; [lia|]. split.
  - intros d Hd. apply completed_dates_Some. by apply H3.
  - intros d Hd. rewrite <- completed_dates_Some. by apply H4.
Qed.

Lemma current_streak_found (items : list doc) (today : date) (N : Z) (missing : date) :
  points_ok items ->
  0 <= N -> Z.pos missing = Z.pos today - N ->
  (forall d : date, Z.pos missing < Z.pos d <= Z.pos today -> completed_on items d) ->
  ~ completed_on items missing ->
  exists st, compute_stats items today = Return st /\ current_streak st = N.
Proof.
  intros Hp HN Hm Hrun Hmiss.
  destruct (compute_stats_returns items today Hp) as (st & Hst & _).
  { exists missing. split; [lia|done]. }
  exists st. split; [done|].
  destruct (current_streak_shape items today st Hst) as (Hr & Hdays & Hstop).
  destruct (Z.lt_trichotomy (current_streak st) N) as [Hlt|[Heq|Hgt]]; [|done|].
  - destruct (Hstop (Z.to_pos (Z.pos today - current_streak st))); [lia|].
    apply Hrun. lia.
  - destruct Hmiss. apply Hdays. lia.
Qed.

(** C1. On completion records as the data model types them ([completed] a
    boolean), [current_streak] is the number N found by walking back from
    today over the days that have a record with [completed == true] and
    stopping at the first day without one. Whatever the computation returns
    has that shape: each of the [current_streak] days ending today has such
    a record and the day before them has none. Conversely, when each of the
    N days ending today has a record with [completed == true] and the day
    before them is a calendar day that has none, the computation returns
    [current_streak = N]. In particular the streak is 0 when today has no
    such record, whatever the days before. *)
Theorem current_streak_walks_back (items : list doc) (today : date) :
  boolean_completed items ->
  (forall st, compute_stats items today = Return st ->
     0 <= current_streak st < Z.pos today
     /\ (forall d : date,
           Z.pos today - current_streak st < Z.pos d <= Z.pos today ->
           has_completed_record items d)
     /\ (forall d : date,
           Z.pos d = Z.pos today - current_streak st ->
           ~ has_completed_record items d))
  /\ (points_ok items ->
      forall (N : Z) (missing : date),
        0 <= N -> Z.pos missing = Z.pos today - N ->
        (forall d : date,
           Z.pos missing < Z.pos d <= Z.pos today -> has_completed_record items d) ->
        ~ has_completed_record items missing ->
        exists st, compute_stats items today = Return st /\ current_streak st = N)
  /\ (points_ok items -> ~ has_completed_record items today ->
      exists st, compute_stats items today = Return st /\ current_streak st = 0).
Proof.
  intros Hb.
  assert (Heq : forall d, completed_on items d <-> has_completed_record items d)
    by (intros d; by apply completed_on_boolean).
  split; [|split].
  - intros st Hst.
    destruct (current_streak_shape items today st Hst) as (Hr & Hdays & Hstop).
    split; [done|]. split.
    + intros d Hd. apply Heq. by apply Hdays.
    + intros d Hd. rewrite <- Heq. by apply Hstop.
  - intros Hp N missing HN Hm Hrun Hmiss.
    apply (current_streak_found items today N missing Hp HN Hm).
    + intros d Hd. apply Heq. by apply Hrun.
    + by rewrite Heq.
  - intros Hp Htoday.
    apply (current_streak_found items today 0 today Hp); [lia|lia| |by rewrite Heq].
    intros d Hd. lia.
Qed.

(** C2. On completion records as the data model types them,
    [days_completed] is the number of distinct days whose date parses and
    that have at least one record with [completed == true]: these days can
    be listed without repetition, and [days_completed] is the length of the
    list, so that several records of one day count once and a day whose
    records all have [completed == false] is not counted. The computation
    returns when the points are integers and some day up to today has no
    record with [completed == true]. *)
Theorem days_completed_counts_distinct_days (items : list doc) (today : date) :
  boolean_completed items ->
  (points_ok items -> has_missing_day items today -> returns (compute_stats items today))
  /\ (forall st, compute_stats items today = Return st ->
      exists days : list date,
        NoDup days
        /\ (forall d, d ∈ days <-> has_completed_record items d)
        /\ days_completed st = Z.of_nat (length days)).
Proof.
  intros Hb. split.
  - intros Hp Hg. apply (has_gap_boolean items today Hb) in Hg.
    destruct (compute_stats_returns items today Hp Hg) as (st & Hst & _).
    by exists st.
  - intros st Hst. apply compute_stats_inv in Hst as (_ & _ & _ & Hdc).
    destruct (completed_dates_listing items) as (days & Hnd & Hin & Hsz).
    exists days. split; [done|]. split; [|by rewrite Hdc, Hsz].
    intros d. rewrite Hin. by apply completed_on_boolean.
Qed.

(** C3. [total_points] is the sum of the points of all records whose date
    parses, completed or not; one more record on a day that is already
    completed adds its points to [total_points] and leaves
    [days_completed] as it was. *)
Theorem total_points_sums_all_records (items : list doc) (today : date) :
  (points_ok items -> has_gap items today -> returns (compute_stats items today))
  /\ (forall st, compute_stats items today = Return st ->
      total_points st = sum_Z (points_value <$> filter parseable items)
      /\ forall (r : doc) (d : date),
           parse_d (get "date" r) = Some d -> completed_on items d ->
           returns (points_of r) ->
           exists st', compute_stats (items ++ [r]) today = Return st'
             /\ total_points st' = total_points st + points_value r
             /\ days_completed st' = days_completed st).
Proof.
  split.
  { intros Hp Hg. destruct (compute_stats_returns items today Hp Hg) as (st & Hst & _).
    by exists st. }
  intros st Hst. apply compute_stats_inv in Hst as (Hp & Hg & Htp & Hdc).
  split; [done|].
  intros r d Hd Hc Hr.
  assert (Hsame : forall d', completed_on (items ++ [r]) d' <-> completed_on items d').
  { intros d'. unfold completed_on. split.
    - intros (i & Hi & Hdi & Hti). apply elem_of_app in Hi as [Hi|Hi]; [by exists i|].
      apply list_elem_of_singleton in Hi as ->.
      rewrite Hd in Hdi. by injection Hdi as <-.
    - intros (i & Hi & H). exists i. split; [|done]. apply elem_of_app. by left. }
  assert (Hcd : completed_dates_of (items ++ [r]) = completed_dates_of items).
  { apply set_eq. intros o. rewrite !elem_of_completed_dates.
    split; intros (d' & -> & H); exists d'; (split; [done|]); by apply Hsame. }
  destruct (compute_stats_returns (items ++ [r]) today) as (st' & Hst' & _ & Htp' & Hdc').
  - intros i Hi Hpi. apply elem_of_app in Hi as [Hi|Hi]; [by apply Hp|].
    by apply list_elem_of_singleton in Hi as ->.
  - destruct Hg as (g & Hg & Hn). exists g. split; [done|]. by rewrite Hsame.
  - exists st'. split; [done|]. split.
    + rewrite Htp', Htp, filter_app, fmap_app.
      rewrite (filter_cons_True parseable r []) by (unfold parseable; by rewrite Hd).
      rewrite filter_nil, sum_Z_app. unfold sum_Z at 2. simpl. lia.
    + by rewrite Hdc', Hdc, Hcd.
Qed.

(** C5. A record whose date does not parse is left out of the three
    outputs: the computation gives the same outcome with and without it,
    so the record raises nothing by itself; alone, it gives all zeros. *)
Theorem unparseable_record_excluded (l1 l2 : list doc) (r : doc) (today : date) :
  parse_d (get "date" r) = None ->
  compute_stats (l1 ++ r :: l2) today = compute_stats (l1 ++ l2) today
  /\ compute_stats [r] today
     = Return {| days_completed := 0; current_streak := 0; total_points := 0 |}.
Proof.
  intros Hr.
  assert (Hdrop : forall l, filter (fun i => parse_d (get "date" i) ≠ None) (r :: l)
                  = filter (fun i => parse_d (get "date" i) ≠ None) l).
  { intros l. apply filter_cons_False. by rewrite Hr; intros []. }
  split.
  - unfold compute_stats. by rewrite !filter_app, Hdrop.
  - unfold compute_stats. rewrite Hdrop, filter_nil. simpl.
    rewrite streak_loop_step. by destruct (decide _) as [Hin|_]; [set_solver|].
Qed.

(** C9. The three outputs do not depend on the order of the records: two
    lists that are permutations of each other give the same result (and
    if the computation raises on one, it raises on the other). *)
Theorem stats_invariant_under_permutation (items1 items2 : list doc) (today : date) :
  items1 ≡ₚ items2 ->
  forall st, compute_stats items1 today = Return st
             <-> compute_stats items2 today = Return st.
Proof.
  intros Hperm st. rewrite !compute_stats_Return.
  rewrite (completed_dates_perm items1 items2 Hperm).
  rewrite !sum_points_spec.
  rewrite <- !points_ok_kept.
  assert (Hsum : sum_Z (points_value <$> kept items1)
                 = sum_Z (points_value <$> kept items2)).
  { apply sum_Z_perm, fmap_Permutation, kept_proper, Hperm. }
  rewrite Hsum.
  assert (Hok : points_ok items1 <-> points_ok items2).
  { unfold points_ok. split; intros H i Hi; apply H; [by rewrite Hperm|by rewrite <- Hperm]. }
  by rewrite Hok.
Qed.

(** C10. The streak never exceeds the number of completed days: the
    computation returns on well-formed input, and whatever it returns
    satisfies [0 <= current_streak <= days_completed]. *)
Theorem current_streak_le_days_completed (items : list doc) (today : date) :
  (points_ok items -> has_gap items today -> returns (compute_stats items today))
  /\ (forall st, compute_stats items today = Return st ->
        0 <= current_streak st <= days_completed st).
Proof.
  split.
  - intros Hp Hg. destruct (compute_stats_returns items today Hp Hg) as (st & Hst & _).
    by exists st.
  - intros st H. apply compute_stats_Return in H as (Hloop & _ & ->).
    pose proof (streak_loop_le_size _ _ _ _ Hloop).
    apply streak_loop_walk in Hloop as (H1 & _). lia.
Qed.

(** ** Deciding the vocabulary on concrete records *)

Lemma completed_on_decide items d :
  bool_decide (Some d ∈ completed_dates_of items) = true -> completed_on items d.
Proof. intros H. apply bool_decide_eq_true in H. by apply completed_dates_Some. Qed.

Lemma not_completed_on_decide items d :
  bool_decide (Some d ∈ completed_dates_of items) = false -> ~ completed_on items d.
Proof. intros H. apply bool_decide_eq_false in H. by rewrite <- completed_dates_Some. Qed.

Lemma points_ok_Forall items :
  Forall (fun i => returns (points_of i)) items -> points_ok items.
Proof. rewrite Forall_forall. intros H i Hi _. by apply H. Qed.

Lemma boolean_completed_Forall items :
  Forall (fun i : doc => exists b : bool, i !! "completed" = Some (VBool b)) items ->
  boolean_completed items.
Proof. rewrite Forall_forall. intros H i Hi. right. by apply H. Qed.

Lemma has_completed_record_Exists items d :
  Exists (fun i : doc => parse_d (get "date" i) = Some d
                         /\ i !! "completed" = Some (VBool true)) items ->
  has_completed_record items d.
Proof. rewrite Exists_exists. intros (i & Hi & H). by exists i. Qed.

Lemma no_completed_record_Forall items d :
  Forall (fun i : doc => parse_d (get "date" i) <> Some d
                         \/ i !! "completed" <> Some (VBool true)) items ->
  ~ has_completed_record items d.
Proof.
  rewrite Forall_forall. intros H (i & Hi & Hd & Hc).
  by destruct (H i Hi) as [Hn | Hn].
Qed.

(** ** The endpoints and the store *)

Lemma progress_stats_available st user_id today :
  progress_stats (Some st) user_id today
  = compute_stats
      (get_documents st (collection_name Progress) {["user_id" := user_id]}) today.
Proof. reflexivity. Qed.

Lemma progress_stats_unavailable user_id today :
  progress_stats None user_id today
  = Raise (HTTPException 500 "Database not available").
Proof. reflexivity. Qed.

Lemma documents_create st collection d :
  documents (create_document st collection d).1 collection
  = documents st collection ++ [d].
Proof. unfold documents at 1. simpl. by rewrite lookup_insert_eq. Qed.

(** ** Order totals *)

Lemma numeric_py_float v : numeric v -> returns (py_float v).
Proof. destruct v; simpl; try done; intros _; by eexists. Qed.

Lemma order_total_numeric items : forall total,
  Forall numeric_item items ->
  order_total total items
  = Return (fold_left PrimFloat.add (line_amount <$> items) total).
Proof.
  induction items as [|item items IH]; intros total HF; [done|].
  inversion HF as [|? ? [Hq Hp] HF']; subst.
  rewrite fmap_cons. cbn [order_total fold_left]. unfold line_amount.
  destruct (numeric_py_float _ Hq) as [qty ->].
  destruct (numeric_py_float _ Hp) as [price ->]. simpl.
  by apply IH.
Qed.

Lemma order_total_Return items : forall total t,
  order_total total items = Return t ->
  t = fold_left PrimFloat.add (line_amount <$> items) total.
Proof.
  induction items as [|item items IH]; intros total t; [by intros [= <-]|].
  rewrite fmap_cons. cbn [order_total fold_left]. unfold line_amount.
  destruct (py_float (get_default "qty" (VInt 1) item)) as [qty|e]; [|done].
  destruct (py_float (get_default "price" (VInt 0) item)) as [price|e]; [|done].
  simpl. apply IH.
Qed.

(** Once the loop has returned [total], the order is stored with
    [round(total, 2)], which is also what the caller gets. *)
Lemma create_order_Return st payload total :
  order_total 0 (oc_items payload) = Return total ->
  exists record : gmap string pyval,
    create_order (Some st) payload
    = Return ((create_document st (collection_name Order) record).1,
              {| o_id := (create_document st (collection_name Order) record).2;
                 o_total_amount := VFloat (round2 total) |})
    /\ get "total_amount" record = VFloat (round2 total)
    /\ get "items" record = VList (VDict <$> oc_items payload).
Proof.
  intros H. eexists. unfold create_order. rewrite H. simpl.
  split; [reflexivity|]. split; reflexivity.
Qed.

(** *** What [round] does *)

Lemma div_half_even_nearest a b :
  0 <= a -> 0 < b ->
  2 * Z.abs (a - div_half_even a b * b) < b
  \/ (2 * Z.abs (a - div_half_even a b * b) = b /\ Z.even (div_half_even a b) = true).
Proof.
  intros Ha Hb. unfold div_half_even.
  pose proof (Z.div_mod a b ltac:(lia)) as Hdm.
  pose proof (Z.mod_pos_bound a b Hb) as Hr.
  set (q := a / b) in *. set (r := a mod b) in *.
  assert (Hq : a - q * b = r) by lia.
  assert (Hq1 : a - (q + 1) * b = r - b) by lia.
  destruct (2 * r ?= b) eqn:E.
  - apply Z.compare_eq in E. right.
    destruct (Z.even q) eqn:Hev.
    + rewrite Hq. split; [lia|done].
    + rewrite Hq1. split; [lia|].
      by rewrite Z.add_1_r, Z.even_succ, <- Z.negb_even, Hev.
  - change (2 * r < b) in E. left. rewrite Hq. lia.
  - change (2 * r > b) in E. left. rewrite Hq1. lia.
Qed.

Lemma nearest_even_quotient (a : Z) (d : positive) (n : Z) :
  2 * Z.abs (a - n * Z.pos d) < Z.pos d
  \/ (2 * Z.abs (a - n * Z.pos d) = Z.pos d /\ Z.even n = true) ->
  nearest_even (Qmake a d) n.
Proof.
  unfold nearest_even, Qlt, Qeq, Qabs, Qminus, Qplus, Qopp, inject_Z. simpl.
  rewrite !Pos.mul_1_r, !Z.mul_1_r.
  intros [H | [H He]]; [left|right; split; [|done]]; lia.
Qed.

Lemma nearest_even_integer (a : Z) : nearest_even (100 * inject_Z a) (a * 100).
Proof.
  left. unfold Qlt, Qabs, Qminus, Qplus, Qopp, Qmult, inject_Z. simpl.
  rewrite !Z.mul_1_r. lia.
Qed.

(** [round(x, 2)] gives the hundredth nearest to the exact value of [x],
    the even one at a tie, with the sign of [x]. *)
Lemma round2_rounded (x : float) : rounded_float x (round2 x).
Proof.
  unfold rounded_float, round2.
  destruct (Prim2SF x) as [s|s| |s m e]; try reflexivity.
  eexists. split; [|reflexivity].
  destruct e as [|p|k]; unfold magnitude.
  - apply nearest_even_integer.
  - apply nearest_even_integer.
  - change (100 * Qmake (Z.pos m) (2 ^ k))%Q with (Qmake (100 * Z.pos m) (2 ^ k)).
    apply nearest_even_quotient.
    rewrite Pos2Z.inj_pow, (Z.mul_comm 100).
    apply div_half_even_nearest; lia.
Qed.

Lemma close_multiples (d x y : Z) : 0 < d -> Z.abs (x * d - y * d) < d -> x = y.
Proof. intros Hd H. nia. Qed.

Lemma even_neighbours (d x y : Z) :
  0 < d -> Z.abs (x * d - y * d) <= d -> Z.even x = true -> Z.even y = true -> x = y.
Proof.
  intros Hd H Hx Hy.
  apply Z.even_spec in Hx as [k ->]. apply Z.even_spec in Hy as [l ->].
  assert (Z.abs (k - l) * 2 <= 1) by nia. lia.
Qed.

Lemma nearest_even_unique (q : Q) (n1 n2 : Z) :
  nearest_even q n1 -> nearest_even q n2 -> n1 = n2.
Proof.
  destruct q as [a d].
  unfold nearest_even, Qlt, Qeq, Qabs, Qminus, Qplus, Qopp, inject_Z. simpl.
  rewrite !Pos.mul_1_r, !Z.mul_1_r.
  intros [H1 | [H1 E1]] [H2 | [H2 E2]].
  - apply (close_multiples (Z.pos d)); lia.
  - apply (close_multiples (Z.pos d)); lia.
  - apply (close_multiples (Z.pos d)); lia.
  - apply (even_neighbours (Z.pos d)); [lia|lia|done|done].
Qed.

(** Rounding to 2 decimal places leaves one value. *)
Lemma rounded_float_unique (x t1 t2 : float) :
  rounded_float x t1 -> rounded_float x t2 -> t1 = t2.
Proof.
  unfold rounded_float. destruct (Prim2SF x) as [s|s| |s m e]; try congruence.
  intros (n1 & H1 & ->) (n2 & H2 & ->).
  by rewrite (nearest_even_unique _ _ _ H1 H2).
Qed.

(** C4, as amended. The [total_amount] stored in a created order and the
    one returned to the caller are the same binary64 value [t]: the
    products [qty * price], with [qty] 1 and [price] 0 where absent, are
    formed and added in binary64, from left to right starting at 0.0, and
    [t] is that binary64 sum rounded to 2 decimal places: the hundredth
    nearest to its exact value, ties to even, as a binary64 value, which
    leaves one value. The order is created when every [qty] and [price] is
    numeric: a float, a bool, or an int that [float] converts to a finite
    value. The exact sum of the products, rounded to 2 decimal places, can
    be another number. *)
Theorem order_total_amount_is_rounded_float_sum (st : store) (payload : OrderCreate) :
  (Forall numeric_item (oc_items payload) -> returns (create_order (Some st) payload))
  /\ (forall st' response, create_order (Some st) payload = Return (st', response) ->
      exists (record : gmap string pyval) (t : float),
        (st', o_id response) = create_document st (collection_name Order) record
        /\ documents st' (collection_name Order)
           = documents st (collection_name Order) ++ [record]
        /\ get "total_amount" record = VFloat t
        /\ o_total_amount response = VFloat t
        /\ rounded_float (float_sum (line_amount <$> oc_items payload)) t
        /\ forall t' : float,
             rounded_float (float_sum (line_amount <$> oc_items payload)) t' -> t' = t).
Proof.
  split.
  - intros HF.
    destruct (create_order_Return st payload _ (order_total_numeric _ 0%float HF))
      as (record & Hc & _). rewrite Hc. by eexists.
  - intros st' response H.
    destruct (order_total 0 (oc_items payload)) as [total|e] eqn:E;
      [|by unfold create_order in H; rewrite E in H].
    destruct (create_order_Return st payload total E) as (record & Hc & Ht & _).
    rewrite Hc in H. injection H as <- <-.
    apply order_total_Return in E. unfold float_sum. rewrite <- E.
    exists record, (round2 total). split; [reflexivity|].
    split; [exact (documents_create st _ record)|].
    split; [done|]. split; [done|]. split; [apply round2_rounded|].
    intros t' Ht'. exact (rounded_float_unique _ _ _ Ht' (round2_rounded total)).
Qed.

(** C6. The order of one item with [qty] 2 and [price] 3.005 gets the
    total 6.01: twice the binary64 value of 3.005 is the binary64 value of
    6.01, which no rounding convention moves. It is one of the two values
    the specification allows. *)
Theorem order_total_2_times_3_005
    (st : store) (user_id currency : string) (item : doc) :
  item !! "qty" = Some (VInt 2) \/ item !! "qty" = Some (VFloat 2) ->
  item !! "price" = Some (VFloat 3.005) ->
  exists record : gmap string pyval,
    create_order (Some st)
      {| oc_user_id := user_id; oc_items := [item]; oc_currency := currency |}
    = Return ((create_document st (collection_name Order) record).1,
              {| o_id := (create_document st (collection_name Order) record).2;
                 o_total_amount := VFloat 6.01 |})
    /\ get "total_amount" record = VFloat 6.01.
Proof.
  intros Hqty Hprice.
  destruct (create_order_Return st
              {| oc_user_id := user_id; oc_items := [item]; oc_currency := currency |}
              6.01%float)
    as (record & Hc & Ht & _).
  { cbn [oc_items order_total]. unfold get_default. rewrite Hprice.
    destruct Hqty as [-> | ->]; by vm_compute. }
  exists record.
  assert (Hr : round2 6.01 = 6.01%float) by (by vm_compute).
  rewrite Hr in Hc, Ht. by split.
Qed.

(** C7. Whatever the request, the record that [complete_today] creates
    carries [points_earned = 10], and so does the response. *)
Theorem complete_today_awards_ten_points
    (st : store) (payload : CompleteRequest) (today : date) :
  exists record : gmap string pyval,
    complete_today (Some st) payload today
    = Return ((create_document st (collection_name Progress) record).1,
              {| c_id := (create_document st (collection_name Progress) record).2;
                 c_points_earned := 10 |})
    /\ get "points_earned" record = VInt 10
    /\ get "completed" record = VBool true
    /\ get "user_id" record = VStr (cr_user_id payload)
    /\ documents (create_document st (collection_name Progress) record).1
                 (collection_name Progress)
       = documents st (collection_name Progress) ++ [record].
Proof.
  eexists. split; [reflexivity|]. repeat split. apply documents_create.
Qed.

(** C8. An order without items has the total 0.0. *)
Theorem empty_order_total_is_zero (st : store) (user_id currency : string) :
  exists record : gmap string pyval,
    create_order (Some st)
      {| oc_user_id := user_id; oc_items := []; oc_currency := currency |}
    = Return ((create_document st (collection_name Order) record).1,
              {| o_id := (create_document st (collection_name Order) record).2;
                 o_total_amount := VFloat 0 |})
    /\ get "total_amount" record = VFloat 0.
Proof.
  destruct (create_order_Return st
              {| oc_user_id := user_id; oc_items := []; oc_currency := currency |}
              0%float)
    as (record & Hc & Ht & _); [done|].
  exists record.
  assert (Hr : round2 0 = 0%float) by (by vm_compute).
  rewrite Hr in Hc, Ht. by split.
Qed.

(** * Further properties of the endpoints *)

(** ** Queries on the store *)

Lemma matches_singleton k v (d : doc) :
  matches {[k := v]} d = true <-> d !! k = Some (VStr v).
Proof.
  unfold matches. rewrite map_to_list_singleton. simpl. rewrite andb_true_r.
  destruct (d !! k) as [[]|]; try (split; [done|by intros [=]]).
  rewrite String.eqb_eq. split; [by intros ->|by intros [= ->]].
Qed.

Lemma matches_empty (d : doc) : matches ∅ d = true.
Proof. unfold matches. by rewrite map_to_list_empty. Qed.

Lemma documents_create_ne st c c' d :
  c <> c' -> documents (create_document st c d).1 c' = documents st c'.
Proof. intros Hne. unfold documents at 1. simpl. by rewrite lookup_insert_ne. Qed.

Lemma get_documents_create st c d F :
  get_documents (create_document st c d).1 c F
  = get_documents st c F ++ (if matches F d then [d] else []).
Proof.
  unfold get_documents. rewrite documents_create, filter_app. f_equal.
  destruct (matches F d) eqn:E.
  - by rewrite filter_cons_True.
  - rewrite filter_cons_False; [done|]. by rewrite E.
Qed.

Lemma get_documents_create_ne st c c' d F :
  c <> c' -> get_documents (create_document st c d).1 c' F = get_documents st c' F.
Proof. intros Hne. unfold get_documents. by rewrite documents_create_ne. Qed.

Lemma get_documents_all st c : get_documents st c ∅ = documents st c.
Proof.
  unfold get_documents. induction (documents st c) as [|d l IH]; [done|].
  rewrite filter_cons_True by apply matches_empty. by rewrite IH.
Qed.

Lemma collection_name_inj m1 m2 : collection_name m1 = collection_name m2 -> m1 = m2.
Proof. by destruct m1, m2. Qed.

(** ** What [complete_today] writes, [progress_stats] reads *)

(** Two days are printed alike only if they are the same day. *)
Lemma isoformat_inj (d1 d2 : date) :
  (d1 <= 3652059)%positive -> (d2 <= 3652059)%positive ->
  isoformat d1 = isoformat d2 -> d1 = d2.
Proof.
  intros H1 H2 Heq. apply strptime_isoformat in H1, H2.
  rewrite Heq in H1. congruence.
Qed.

(** X1. The day that [complete_today] stores, printed by [isoformat], is
    read back by [parse_d] as the same day, for every date up to
    9999-12-31; and no other day is printed the same way. *)
Theorem parse_d_isoformat (d : date) :
  (d <= 3652059)%positive ->
  parse_d (VStr (isoformat d)) = Some d
  /\ forall d' : date, (d' <= 3652059)%positive -> isoformat d' = isoformat d -> d' = d.
Proof.
  intros Hd. split; [by apply strptime_isoformat|].
  intros d' Hd' Heq. by apply isoformat_inj.
Qed.

(** The record that [complete_today] hands to the store. *)
Lemma complete_today_Return st payload today :
  complete_today (Some st) payload today
  = Return ((create_document st (collection_name Progress)
               (completion_record (cr_user_id payload)
                  (default today (cr_date payload)))).1,
            {| c_id := next_id st; c_points_earned := 10 |}).
Proof. unfold complete_today. simpl. by destruct (cr_date payload). Qed.

Lemma complete_today_store st st' payload today response :
  complete_today (Some st) payload today = Return (st', response) ->
  st' = (create_document st (collection_name Progress)
           (completion_record (cr_user_id payload)
              (default today (cr_date payload)))).1.
Proof. rewrite complete_today_Return. by intros [= <- _]. Qed.

Lemma progress_stats_records st user_id today :
  progress_stats (Some st) user_id today
  = compute_stats (user_records st user_id) today.
Proof. reflexivity. Qed.

(** ** One more record *)

Lemma completed_on_snoc items (r : doc) d :
  completed_on (items ++ [r]) d <->
  completed_on items d
  \/ (parse_d (get "date" r) = Some d /\ truthy (get "completed" r) = true).
Proof.
  unfold completed_on. split.
  - intros (i & Hi & Hd & Ht). apply elem_of_app in Hi as [Hi|Hi].
    + left. by exists i.
    + apply list_elem_of_singleton in Hi as ->. by right.
  - intros [(i & Hi & H)|[Hd Ht]].
    + exists i. split; [|done]. apply elem_of_app. by left.
    + exists r. split; [|done]. apply elem_of_app. right. by apply list_elem_of_singleton.
Qed.

Lemma completed_dates_snoc items (r : doc) d :
  parse_d (get "date" r) = Some d -> truthy (get "completed" r) = true ->
  completed_dates_of (items ++ [r]) = {[Some d]} ∪ completed_dates_of items.
Proof.
  intros Hd Ht. apply set_eq. intros o.
  rewrite elem_of_union, elem_of_singleton, !elem_of_completed_dates. split.
  - intros (d' & -> & H). apply completed_on_snoc in H as [H|[H _]].
    + right. by exists d'.
    + left. congruence.
  - intros [->|(d' & -> & H)].
    + exists d. split; [done|]. apply completed_on_snoc. by right.
    + exists d'. split; [done|]. apply completed_on_snoc. by left.
Qed.

Lemma completed_dates_snoc_other items (r : doc) :
  truthy (get "completed" r) = false \/ parse_d (get "date" r) = None ->
  completed_dates_of (items ++ [r]) = completed_dates_of items.
Proof.
  intros Hr. apply set_eq. intros o. rewrite !elem_of_completed_dates.
  split; intros (d' & -> & H); exists d'; (split; [done|]).
  - apply completed_on_snoc in H as [H|[Hd Ht]]; [done|].
    destruct Hr as [Hr|Hr]; congruence.
  - apply completed_on_snoc. by left.
Qed.

(** A larger set of completed days gives a streak at least as long. *)
Lemma streak_loop_mono (cd cd' : gset (option date)) (p : date) s r r' :
  (forall d : date, Some d ∈ cd -> Some d ∈ cd') ->
  streak_loop cd p s = Return r -> streak_loop cd' p s = Return r' -> r <= r'.
Proof.
  intros Hsub H H'.
  apply streak_loop_walk in H as (H1 & H2 & H3 & _).
  apply streak_loop_walk in H' as (H1' & H2' & _ & H4').
  destruct (Z.le_gt_cases r r') as [|Hlt]; [done|exfalso].
  apply (H4' (Z.to_pos (Z.pos p - (r' - s)))); [lia|].
  apply Hsub, H3. lia.
Qed.

(** The loop looks at no day after the one it starts from. *)
Lemma streak_loop_ext (cd cd' : gset (option date)) (p : date) : forall s,
  (forall d : date, (d <= p)%positive -> Some d ∈ cd <-> Some d ∈ cd') ->
  streak_loop cd p s = streak_loop cd' p s.
Proof.
  induction p as [|q IH] using Pos.peano_ind; intros s Hagree;
    rewrite (streak_loop_step cd), (streak_loop_step cd').
  - destruct (decide (Some 1%positive ∈ cd)) as [Hin|Hout];
      destruct (decide (Some 1%positive ∈ cd')) as [Hin'|Hout']; try done.
    + destruct Hout'. by apply Hagree.
    + destruct Hout. by apply Hagree.
  - assert (Hrec : streak_loop cd q (s + 1) = streak_loop cd' q (s + 1)).
    { apply IH. intros d Hd. apply Hagree. lia. }
    destruct (decide (Some (Pos.succ q) ∈ cd)) as [Hin|Hout];
      destruct (decide (Some (Pos.succ q) ∈ cd')) as [Hin'|Hout']; try done.
    + destruct (decide (Pos.succ q = 1%positive)); [done|].
      by rewrite Pos.pred_succ.
    + destruct Hout'. by apply Hagree.
    + destruct Hout. by apply Hagree.
Qed.

(** The counter the loop starts from is added to what it counts. *)
Lemma streak_loop_shift (cd : gset (option date)) (p : date) : forall s k r,
  streak_loop cd p s = Return r -> streak_loop cd p (s + k) = Return (r + k).
Proof.
  induction p as [|q IH] using Pos.peano_ind; intros s k r;
    rewrite (streak_loop_step cd _ s), (streak_loop_step cd _ (s + k)).
  - destruct (decide (Some 1%positive ∈ cd));
      [by destruct (decide (1%positive = 1%positive))|].
    by intros [= <-].
  - destruct (decide (Some (Pos.succ q) ∈ cd)); [|by intros [= <-]].
    destruct (decide (Pos.succ q = 1%positive)); [done|].
    rewrite Pos.pred_succ. intros H.
    replace (s + k + 1) with (s + 1 + k) by lia. by apply IH.
Qed.

(** What one more completed record does to the three outputs. *)
Lemma compute_stats_snoc items (r : doc) (d : date) p today s0 s1 :
  compute_stats items today = Return s0 ->
  compute_stats (items ++ [r]) today = Return s1 ->
  parse_d (get "date" r) = Some d -> truthy (get "completed" r) = true ->
  points_of r = Return p ->
  total_points s1 = total_points s0 + p
  /\ (completed_on items d -> days_completed s1 = days_completed s0)
  /\ (~ completed_on items d -> days_completed s1 = days_completed s0 + 1)
  /\ current_streak s0 <= current_streak s1.
Proof.
  intros H0 H1 Hd Ht Hp.
  pose proof (compute_stats_inv _ _ _ H0) as (_ & _ & Htp0 & Hdc0).
  pose proof (compute_stats_inv _ _ _ H1) as (_ & _ & Htp1 & Hdc1).
  apply compute_stats_Return in H0 as (Hs0 & _).
  apply compute_stats_Return in H1 as (Hs1 & _).
  rewrite (completed_dates_snoc items r d Hd Ht) in Hs1, Hdc1.
  split; [|split; [|split]].
  - rewrite Htp1, Htp0, filter_app, fmap_app, sum_Z_app.
    rewrite (filter_cons_True parseable r []) by (unfold parseable; by rewrite Hd).
    rewrite filter_nil. unfold sum_Z at 2. simpl. unfold points_value. rewrite Hp. lia.
  - intros Hc. apply completed_dates_Some in Hc.
    rewrite Hdc1, Hdc0. do 2 f_equal. apply set_eq. intros o.
    rewrite elem_of_union, elem_of_singleton. split; [by intros [->|]|by right].
  - intros Hc. rewrite <- completed_dates_Some in Hc.
    rewrite Hdc1, Hdc0, size_union by (by apply disjoint_singleton_l).
    rewrite size_singleton. lia.
  - eapply streak_loop_mono; [|exact Hs0|exact Hs1].
    intros d' Hin. apply elem_of_union. by right.
Qed.

(** ** A completion and the stats after it *)

Lemma user_records_create st owner target user_id :
  user_records (create_document st (collection_name Progress)
                  (completion_record owner target)).1 user_id
  = user_records st user_id
    ++ (if decide (user_id = owner) then [completion_record owner target] else []).
Proof.
  unfold user_records. rewrite get_documents_create. f_equal.
  destruct (matches _ _) eqn:E.
  - apply matches_singleton in E. unfold completion_record in E.
    rewrite lookup_insert_eq in E. injection E as E. by rewrite decide_True.
  - destruct (decide (user_id = owner)) as [->|Hne]; [|done].
    assert (matches {["user_id" := owner]} (completion_record owner target) = true) as E'.
    { apply matches_singleton. unfold completion_record. by rewrite lookup_insert_eq. }
    congruence.
Qed.

Lemma completion_record_fields owner target :
  (target <= 3652059)%positive ->
  parse_d (get "date" (completion_record owner target)) = Some target
  /\ truthy (get "completed" (completion_record owner target)) = true
  /\ points_of (completion_record owner target) = Return 10.
Proof. intros H. split; [by apply strptime_isoformat|done]. Qed.

(** X2. After [complete_today], the stats of the same user count the
    completion: [total_points] is 10 more, [days_completed] is one more if
    the day had no completed record and unchanged if it had, and the streak
    is not shorter. The stats are returned when the user has fewer records
    than there are days up to today. *)
Theorem completion_is_counted
    (st st' : store) (payload : CompleteRequest) (today : date)
    (response : CompleteResponse) (s0 : StatsResponse) :
  complete_today (Some st) payload today = Return (st', response) ->
  (default today (cr_date payload) <= 3652059)%positive ->
  progress_stats (Some st) (cr_user_id payload) today = Return s0 ->
  (Z.of_nat (length (user_records st (cr_user_id payload))) + 1 < Z.pos today ->
   returns (progress_stats (Some st') (cr_user_id payload) today))
  /\ forall s1, progress_stats (Some st') (cr_user_id payload) today = Return s1 ->
       total_points s1 = total_points s0 + 10
       /\ (completed_on (user_records st (cr_user_id payload))
             (default today (cr_date payload)) ->
           days_completed s1 = days_completed s0)
       /\ (~ completed_on (user_records st (cr_user_id payload))
               (default today (cr_date payload)) ->
           days_completed s1 = days_completed s0 + 1)
       /\ current_streak s0 <= current_streak s1.
Proof.
  intros Hc Hmax. apply complete_today_store in Hc as ->. revert Hmax. intros Hmax.
  rewrite !progress_stats_records, user_records_create, decide_True by done.
  set (r := completion_record _ _).
  intros H0.
  destruct (completion_record_fields (cr_user_id payload) _ Hmax) as (Hd & Ht & Hpts).
  fold r in Hd, Ht, Hpts.
  split.
  - intros Hfew.
    pose proof (compute_stats_inv _ _ _ H0) as (Hp & _).
    destruct (compute_stats_returns (user_records st (cr_user_id payload) ++ [r]) today)
      as (s1 & Hs1 & _).
    + intros i Hi Hpi. apply elem_of_app in Hi as [Hi|Hi]; [by apply Hp|].
      apply list_elem_of_singleton in Hi as ->. by eexists.
    + apply few_records_has_gap. rewrite length_app. simpl. clear -Hfew. lia.
    + by exists s1.
  - intros s1 H1. by apply (compute_stats_snoc _ r _ 10 today s0 s1).
Qed.

(** X3. A completion recorded for today makes the streak one more than the
    streak as it stood yesterday, and so at least 1. *)
Theorem completing_today_extends_streak
    (st st' : store) (payload : CompleteRequest) (today : date)
    (response : CompleteResponse) (sy : StatsResponse) :
  complete_today (Some st) payload today = Return (st', response) ->
  cr_date payload = None \/ cr_date payload = Some today ->
  (1 < today <= 3652059)%positive ->
  progress_stats (Some st) (cr_user_id payload) (Pos.pred today) = Return sy ->
  exists s1, progress_stats (Some st') (cr_user_id payload) today = Return s1
    /\ current_streak s1 = current_streak sy + 1
    /\ total_points s1 = total_points sy + 10.
Proof.
  intros Hc Hdate [Hone Hmax]. apply complete_today_store in Hc as ->.
  assert (Htarget : default today (cr_date payload) = today)
    by (by destruct Hdate as [-> | ->]).
  rewrite !progress_stats_records, user_records_create, decide_True by done.
  rewrite Htarget.
  set (r := completion_record _ _).
  set (items := user_records st (cr_user_id payload)).
  intros Hy.
  destruct (completion_record_fields (cr_user_id payload) today Hmax) as (Hd & Ht & Hpts).
  fold r in Hd, Ht, Hpts.
  pose proof (compute_stats_inv _ _ _ Hy) as (Hp & _ & Htp & _).
  apply compute_stats_Return in Hy as (Hloop & _).
  assert (Hcd : completed_dates_of (items ++ [r]) = {[Some today]} ∪ completed_dates_of items)
    by (by apply completed_dates_snoc).
  assert (Hloop' : streak_loop (completed_dates_of (items ++ [r])) today 0
                   = Return (current_streak sy + 1)).
  { rewrite streak_loop_step, decide_True
      by (rewrite Hcd; apply elem_of_union; left; by apply elem_of_singleton).
    rewrite decide_False by (clear -Hone; lia).
    rewrite (streak_loop_ext _ (completed_dates_of items)).
    - by apply (streak_loop_shift _ _ 0 1).
    - intros d Hle. rewrite Hcd, elem_of_union, elem_of_singleton.
      split; [|by right]. intros [[= ->]|]; [clear -Hle Hone; lia|done]. }
  assert (Hp' : points_ok (items ++ [r])).
  { intros i Hi Hpi. apply elem_of_app in Hi as [Hi|Hi]; [by apply Hp|].
    apply list_elem_of_singleton in Hi as ->. by eexists. }
  exists {| days_completed := Z.of_nat (size (completed_dates_of (items ++ [r])));
            current_streak := current_streak sy + 1;
            total_points := total_points sy + 10 |}.
  split; [|done]. apply compute_stats_Return. simpl. split; [done|]. split; [|done].
  apply sum_points_spec. split; [by apply points_ok_kept|].
  rewrite kept_points, Htp, filter_app, fmap_app, sum_Z_app.
  rewrite (filter_cons_True parseable r []) by (unfold parseable; by rewrite Hd).
  rewrite filter_nil.
  assert (Hs : sum_Z (points_value <$> [r]) = 10).
  { rewrite fmap_cons, sum_Z_cons. unfold points_value. by rewrite Hpts. }
  rewrite Hs. clear. lia.
Qed.

(** X4. A completion of one user leaves the stats of every other user as
    they were, whatever the outcome. *)
Theorem completion_leaves_other_users
    (st st' : store) (payload : CompleteRequest) (today : date)
    (response : CompleteResponse) (user_id : string) (asked : date) :
  complete_today (Some st) payload today = Return (st', response) ->
  user_id <> cr_user_id payload ->
  progress_stats (Some st') user_id asked = progress_stats (Some st) user_id asked.
Proof.
  intros Hc Hne. apply complete_today_store in Hc as ->.
  rewrite !progress_stats_records, user_records_create, decide_False by done.
  by rewrite app_nil_r.
Qed.

(** X6. A user without any record gets zeros: no day, no streak, no
    points. *)
Theorem stats_without_records (st : store) (user_id : string) (today : date) :
  (forall d : doc, d ∈ documents st (collection_name Progress) ->
                   d !! "user_id" <> Some (VStr user_id)) ->
  progress_stats (Some st) user_id today
  = Return {| days_completed := 0; current_streak := 0; total_points := 0 |}.
Proof.
  intros Hnone. rewrite progress_stats_available.
  assert (Hempty : get_documents st (collection_name Progress) {["user_id" := user_id]} = []).
  { unfold get_documents. induction (documents st (collection_name Progress)) as [|d l IH];
      [done|].
    rewrite filter_cons_False.
    - apply IH. intros d' Hd'. apply Hnone. by right.
    - rewrite matches_singleton. apply Hnone. by left. }
  rewrite Hempty. unfold compute_stats. rewrite filter_nil. simpl.
  rewrite streak_loop_step. by rewrite decide_False by set_solver.
Qed.

(** X8. Only the streak depends on the day the stats are asked:
    [days_completed] and [total_points] are the same on any two days. *)
Theorem days_and_points_do_not_depend_on_today
    (st : store) (user_id : string) (day1 day2 : date) (s1 s2 : StatsResponse) :
  progress_stats (Some st) user_id day1 = Return s1 ->
  progress_stats (Some st) user_id day2 = Return s2 ->
  days_completed s1 = days_completed s2 /\ total_points s1 = total_points s2.
Proof.
  rewrite !progress_stats_records. intros H1 H2.
  apply compute_stats_inv in H1 as (_ & _ & Ht1 & Hd1).
  apply compute_stats_inv in H2 as (_ & _ & Ht2 & Hd2).
  split; congruence.
Qed.

(** X9. The outputs are bounded by the number of records of the user:
    [0 <= current_streak <= days_completed <= len(records)]. *)
Theorem stats_bounded_by_records
    (st : store) (user_id : string) (today : date) (s : StatsResponse) :
  progress_stats (Some st) user_id today = Return s ->
  0 <= current_streak s <= days_completed s
  /\ days_completed s <= Z.of_nat (length (user_records st user_id)).
Proof.
  rewrite progress_stats_records. intros H.
  pose proof (compute_stats_inv _ _ _ H) as (_ & _ & _ & Hdc).
  apply compute_stats_Return in H as (Hloop & _).
  pose proof (streak_loop_le_size _ _ _ _ Hloop).
  apply streak_loop_walk in Hloop as (H1 & _).
  pose proof (size_completed_dates_le (user_records st user_id)). lia.
Qed.

(** ** Fields that the stats do not read *)

Lemma same_fields_get (i j : doc) :
  same_progress_fields i j ->
  get "date" i = get "date" j /\ get "completed" i = get "completed" j
  /\ get_default "points_earned" (VInt 0) i = get_default "points_earned" (VInt 0) j.
Proof.
  intros (Hd & Hc & Hp). unfold get, get_default. by rewrite Hd, Hc, Hp.
Qed.

Lemma same_fields_filter (P : doc -> Prop) `{!forall i, Decision (P i)} l1 l2 :
  (forall i j, same_progress_fields i j -> P i <-> P j) ->
  Forall2 same_progress_fields l1 l2 ->
  Forall2 same_progress_fields (filter P l1) (filter P l2).
Proof.
  intros HP. induction 1 as [|i j l1 l2 Hij _ IH]; [constructor|].
  destruct (decide (P i)) as [Hi|Hi].
  - rewrite !filter_cons_True; [by constructor| |done]. by apply (HP i j).
  - rewrite !filter_cons_False; [done| |done]. by rewrite <- (HP i j).
Qed.

Lemma same_fields_insert x y l1 l2 :
  same_progress_fields x y -> Forall2 same_progress_fields l1 l2 ->
  Forall2 same_progress_fields (insert_sorted x l1) (insert_sorted y l2).
Proof.
  intros Hxy. induction 1 as [|i j l1 l2 Hij Hl IH]; simpl.
  { constructor; [exact Hxy|constructor]. }
  unfold sort_key.
  destruct (same_fields_get _ _ Hxy) as (-> & _).
  destruct (same_fields_get _ _ Hij) as (-> & _).
  destruct (key_lt _ _).
  - constructor; [exact Hij|exact IH].
  - constructor; [exact Hxy|]. constructor; [exact Hij|exact Hl].
Qed.

Lemma same_fields_sort l1 l2 :
  Forall2 same_progress_fields l1 l2 ->
  Forall2 same_progress_fields (sort_by_date l1) (sort_by_date l2).
Proof.
  induction 1 as [|i j l1 l2 Hij _ IH]; simpl; [constructor|].
  by apply same_fields_insert.
Qed.

Lemma same_fields_sum l1 l2 : forall acc,
  Forall2 same_progress_fields l1 l2 -> sum_points acc l1 = sum_points acc l2.
Proof.
  intros acc H. revert acc. induction H as [|i j l1 l2 Hij _ IH]; intros acc; [done|].
  simpl. destruct (same_fields_get _ _ Hij) as (_ & _ & ->).
  destruct (py_int _); simpl; [apply IH|done].
Qed.

Lemma same_fields_dates l1 l2 :
  Forall2 same_progress_fields l1 l2 ->
  (fun i => parse_d (get "date" i)) <$> l1 = (fun i => parse_d (get "date" i)) <$> l2.
Proof.
  induction 1 as [|i j l1 l2 Hij _ IH]; [done|].
  rewrite !fmap_cons, IH. by destruct (same_fields_get _ _ Hij) as (-> & _).
Qed.

(** X7. The stats read three fields of a record and nothing else: records
    that agree on [date], [completed] and [points_earned] give the same
    outcome, whatever else they hold (an [_id], a [user_id], timestamps). *)
Theorem stats_read_three_fields (items1 items2 : list doc) (today : date) :
  Forall2 same_progress_fields items1 items2 ->
  compute_stats items1 today = compute_stats items2 today.
Proof.
  intros H.
  assert (Hk : Forall2 same_progress_fields (kept items1) (kept items2)).
  { apply same_fields_sort, same_fields_filter; [|done].
    intros i j Hij. by destruct (same_fields_get _ _ Hij) as (-> & _). }
  assert (Hcd : completed_dates_of items1 = completed_dates_of items2).
  { unfold completed_dates_of. f_equal. apply same_fields_dates.
    apply same_fields_filter; [|done].
    intros i j Hij. by destruct (same_fields_get _ _ Hij) as (_ & -> & _). }
  by rewrite !compute_stats_eq, Hcd, (same_fields_sum _ _ 0 Hk).
Qed.

(** ** Orders *)

Lemma order_total_returns items : forall total,
  returns (order_total total items) <-> Forall convertible_item items.
Proof.
  induction items as [|item items IH]; intros total.
  - split; [constructor|]. intros _. by eexists.
  - cbn [order_total]. rewrite Forall_cons. unfold convertible_item at 1.
    destruct (py_float (get_default "qty" (VInt 1) item)) as [qty|e]; simpl.
    + destruct (py_float (get_default "price" (VInt 0) item)) as [price|e]; simpl.
      * rewrite IH. split; [intros H|by intros [_ H]].
        split; [|done]. split; by eexists.
      * split; [by intros [? [=]]|]. by intros [[_ [? [=]]] _].
    + split; [by intros [? [=]]|]. by intros [[[? [=]] _] _].
Qed.

Lemma py_float_Raise v e :
  py_float v = Raise e -> e = TypeError \/ e = ValueError \/ e = OverflowError.
Proof.
  destruct v; simpl; try (intros [= <-]; auto).
  - unfold float_of_int. destruct (binary_normalize _ _ _ _ _); intros [= <-]; auto.
  - destruct (float_of_str s); intros [= <-]; auto.
Qed.

Lemma order_total_Raise items : forall total e,
  order_total total items = Raise e ->
  e = TypeError \/ e = ValueError \/ e = OverflowError.
Proof.
  induction items as [|item items IH]; intros total e; [done|].
  cbn [order_total].
  destruct (py_float (get_default "qty" (VInt 1) item)) as [qty|e1] eqn:E1; simpl.
  - destruct (py_float (get_default "price" (VInt 0) item)) as [price|e2] eqn:E2; simpl.
    + apply IH.
    + intros [= <-]. by apply (py_float_Raise _ _ E2).
  - intros [= <-]. by apply (py_float_Raise _ _ E1).
Qed.

(** X10. With a store, [create_order] creates the order exactly when
    [float] accepts the [qty] (1 if absent) and the [price] (0 if absent) of
    every item; otherwise it raises the [TypeError], [ValueError] or
    [OverflowError] of the conversion, never an [HTTPException]. *)
Theorem create_order_returns_iff (st : store) (payload : OrderCreate) :
  (returns (create_order (Some st) payload)
   <-> Forall convertible_item (oc_items payload))
  /\ forall e, create_order (Some st) payload = Raise e ->
       e = TypeError \/ e = ValueError \/ e = OverflowError.
Proof.
  split.
  - rewrite <- (order_total_returns _ 0%float). unfold create_order. simpl.
    destruct (order_total 0 (oc_items payload)) as [total|e]; simpl.
    + split; intros _; by eexists.
    + split; by intros [? [=]].
  - intros e. unfold create_order. simpl.
    destruct (order_total 0 (oc_items payload)) as [total|e'] eqn:E; simpl; [done|].
    intros [= <-]. by apply (order_total_Raise _ _ _ E).
Qed.

(** ** Devotionals *)

Lemma dated_docs_none st qdate :
  none_dated qdate (documents st (collection_name Devotional)) ->
  get_documents st (collection_name Devotional) {["date" := qdate]} = [].
Proof.
  unfold get_documents, none_dated.
  induction (documents st (collection_name Devotional)) as [|d l IH]; intros Hnone; [done|].
  rewrite filter_cons_False.
  - apply IH. intros d' Hd'. apply Hnone. by right.
  - rewrite matches_singleton. apply Hnone. by left.
Qed.

Lemma dated_docs_first st qdate (l1 l2 : list doc) (d : doc) :
  documents st (collection_name Devotional) = l1 ++ d :: l2 ->
  none_dated qdate l1 -> d !! "date" = Some (VStr qdate) ->
  exists rest, get_documents st (collection_name Devotional) {["date" := qdate]}
               = d :: rest.
Proof.
  unfold get_documents, none_dated. intros -> Hnone Hd.
  rewrite filter_app.
  assert (filter (fun x => matches {["date" := qdate]} x = true) l1 = []) as ->.
  { induction l1 as [|x l1 IH]; [done|]. rewrite filter_cons_False.
    - apply IH. intros d' Hd'. apply Hnone. by right.
    - rewrite matches_singleton. apply Hnone. by left. }
  rewrite filter_cons_True by (by apply matches_singleton). by eexists.
Qed.

Lemma get_devotional_by_date_docs st qdate locale :
  get_devotional_by_date (Some st) qdate locale
  = match get_documents st (collection_name Devotional) {["date" := qdate]} with
    | [] => Raise (HTTPException 404 "Devotional not found")
    | d :: _ => Return (devotional_view (VStr qdate) locale d)
    end.
Proof.
  unfold get_devotional_by_date, get_documents_limit. simpl.
  by destruct (get_documents st "devotional" {["date" := qdate]}).
Qed.

Lemma create_devotional_store st st' payload inserted_id :
  create_devotional (Some st) payload = Return (st', inserted_id) ->
  st' = (create_document st (collection_name Devotional) (devotional_record payload)).1.
Proof. unfold create_devotional. simpl. by intros [= <- _]. Qed.

(** X11. [get_devotional_by_date] answers 404 when no stored devotional
    carries the date asked for, and otherwise answers with the one stored
    first among those that carry it. *)
Theorem devotional_by_date_first_or_404 (st : store) (qdate locale : string) :
  (none_dated qdate (documents st (collection_name Devotional)) ->
   get_devotional_by_date (Some st) qdate locale
   = Raise (HTTPException 404 "Devotional not found"))
  /\ (forall (l1 l2 : list doc) (d : doc),
        documents st (collection_name Devotional) = l1 ++ d :: l2 ->
        none_dated qdate l1 -> d !! "date" = Some (VStr qdate) ->
        get_devotional_by_date (Some st) qdate locale
        = Return (devotional_view (VStr qdate) locale d)).
Proof.
  split.
  - intros Hnone. by rewrite get_devotional_by_date_docs, dated_docs_none.
  - intros l1 l2 d Hdocs Hnone Hd. rewrite get_devotional_by_date_docs.
    by destruct (dated_docs_first st qdate l1 l2 d Hdocs Hnone Hd) as [rest ->].
Qed.

(** X12. A devotional created for a day that had none is what the lookup
    of that day returns, each field in the language asked for: English for
    the locale [en], Chinese for any other. *)
Theorem created_devotional_is_found
    (st st' : store) (payload : DevotionalCreate) (inserted_id : positive)
    (locale : string) :
  create_devotional (Some st) payload = Return (st', inserted_id) ->
  none_dated (isoformat (dc_date payload)) (documents st (collection_name Devotional)) ->
  get_devotional_by_date (Some st') (isoformat (dc_date payload)) locale
  = Return
      {| dv_date := VStr (isoformat (dc_date payload));
         dv_title := VStr (if String.eqb locale "en" then dc_title_en payload
                           else dc_title_zh payload);
         dv_passage := opt_str (if String.eqb locale "en" then dc_passage_en payload
                                else dc_passage_zh payload);
         dv_content := VStr (if String.eqb locale "en" then dc_content_en payload
                             else dc_content_zh payload);
         dv_reflection_prompt :=
           opt_str (if String.eqb locale "en" then dc_reflection_prompt_en payload
                    else dc_reflection_prompt_zh payload) |}.
Proof.
  intros Hc Hnone. apply create_devotional_store in Hc as ->.
  rewrite get_devotional_by_date_docs, get_documents_create, dated_docs_none by done.
  assert (matches {["date" := isoformat (dc_date payload)]} (devotional_record payload)
          = true) as ->.
  { apply matches_singleton. unfold devotional_record. by rewrite lookup_insert_eq. }
  simpl. unfold devotional_view, localized. by destruct (String.eqb locale "en").
Qed.

(** X13. Creating a devotional never changes an answer already given: a
    day that has a devotional keeps showing the one stored first, also
    when another is created for the same day. *)
Theorem first_devotional_wins
    (st st' : store) (payload : DevotionalCreate) (inserted_id : positive)
    (qdate locale : string) (v : DevotionalView) :
  create_devotional (Some st) payload = Return (st', inserted_id) ->
  get_devotional_by_date (Some st) qdate locale = Return v ->
  get_devotional_by_date (Some st') qdate locale = Return v.
Proof.
  intros Hc. apply create_devotional_store in Hc as ->.
  rewrite !get_devotional_by_date_docs, get_documents_create.
  by destruct (get_documents st (collection_name Devotional) {["date" := qdate]}).
Qed.

(** X14. A devotional created for one day does not show up on another:
    the lookup of any other day gives what it gave before, 404 included. *)
Theorem devotional_of_another_day
    (st st' : store) (payload : DevotionalCreate) (inserted_id : positive)
    (other : date) (locale : string) :
  create_devotional (Some st) payload = Return (st', inserted_id) ->
  (dc_date payload <= 3652059)%positive -> (other <= 3652059)%positive ->
  other <> dc_date payload ->
  get_devotional_by_date (Some st') (isoformat other) locale
  = get_devotional_by_date (Some st) (isoformat other) locale.
Proof.
  intros Hc Hmax Hmax' Hne. apply create_devotional_store in Hc as ->.
  rewrite !get_devotional_by_date_docs, get_documents_create.
  assert (matches {["date" := isoformat other]} (devotional_record payload) = false) as ->.
  { apply not_true_is_false. rewrite matches_singleton. unfold devotional_record.
    rewrite lookup_insert_eq. intros [= Heq]. apply Hne. symmetry.
    by apply isoformat_inj. }
  by rewrite app_nil_r.
Qed.

Lemma today_date_field_str (d : doc) (today : date) s :
  d !! "date" = Some (VStr s) -> today_date_field d today = inl (VStr s).
Proof. intros H. unfold today_date_field, get. by rewrite H. Qed.

(** X15. With a store, [get_today_devotional] always answers, and with
    today's date: the devotional that [get_devotional_by_date] finds for
    today when there is one, a placeholder without passage when there is
    none; it never raises, neither 404 nor [AttributeError]. *)
Theorem today_devotional_always_answers (st : store) (locale : string) (today : date) :
  exists v, get_today_devotional (Some st) locale today = inl v
    /\ dv_date v = VStr (isoformat today)
    /\ (forall v', get_devotional_by_date (Some st) (isoformat today) locale = Return v' ->
         v = v')
    /\ (get_devotional_by_date (Some st) (isoformat today) locale
        = Raise (HTTPException 404 "Devotional not found") ->
        dv_passage v = VNone /\ dv_reflection_prompt v = VNone).
Proof.
  rewrite get_devotional_by_date_docs. unfold get_today_devotional, get_documents_limit.
  simpl ensure_db. cbv iota beta.
  destruct (get_documents st (collection_name Devotional) {["date" := isoformat today]})
    as [|d rest] eqn:E; simpl take.
  - eexists. split; [reflexivity|]. simpl. split; [done|]. split; [by intros v' [=]|done].
  - assert (Hd : d !! "date" = Some (VStr (isoformat today))).
    { apply matches_singleton.
      assert (Hin : d ∈ get_documents st (collection_name Devotional)
                          {["date" := isoformat today]}) by (rewrite E; by left).
      unfold get_documents in Hin. by apply list_elem_of_filter in Hin as [Hm _]. }
    cbv iota. rewrite (today_date_field_str d today _ Hd).
    eexists. split; [reflexivity|]. simpl. split; [done|].
    split; [by intros v' [= <-]|by intros [=]].
Qed.

(** ** Products *)

Lemma create_product_store st st' payload inserted_id :
  create_product (Some st) payload = Return (st', inserted_id) ->
  st' = (create_document st (collection_name Product) (product_dump payload)).1.
Proof. unfold create_product. simpl. by intros [= <- _]. Qed.

Lemma list_products_docs st locale :
  list_products (Some st) locale
  = Return (product_view locale <$> documents st (collection_name Product)).
Proof. unfold list_products. simpl. by rewrite get_documents_all. Qed.

(** X16. The product list has one entry for every stored product, in the
    order of creation, whatever its status; a product just created is the
    last entry, with title and description in the language asked for. *)
Theorem created_product_is_listed_last
    (st st' : store) (payload : ProductCreate) (inserted_id : positive)
    (locale : string) :
  create_product (Some st) payload = Return (st', inserted_id) ->
  exists before,
    list_products (Some st) locale = Return before
    /\ length before = length (documents st (collection_name Product))
    /\ list_products (Some st') locale
       = Return
           (before ++
            [{| pv_sku := VStr (pc_sku payload);
                pv_title := VStr (if String.eqb locale "en" then pc_title_en payload
                                  else pc_title_zh payload);
                pv_description :=
                  opt_str (if String.eqb locale "en" then pc_description_en payload
                           else pc_description_zh payload);
                pv_price := VFloat (pc_price payload);
                pv_currency := VStr (pc_currency payload);
                pv_media_urls := VList (VStr <$> pc_media_urls payload);
                pv_status := VStr (pc_status payload) |}]).
Proof.
  intros Hc. apply create_product_store in Hc as ->.
  exists (product_view locale <$> documents st (collection_name Product)).
  split; [apply list_products_docs|]. split; [by rewrite length_fmap|].
  rewrite list_products_docs, documents_create, fmap_app. do 2 f_equal.
  simpl. unfold product_view, localized. by destruct (String.eqb locale "en").
Qed.

(** ** Writes and the other collections *)

Lemma reads_framed st (collection : string) (d : doc) :
  (collection <> collection_name Progress ->
   forall user_id day,
     progress_stats (Some (create_document st collection d).1) user_id day
     = progress_stats (Some st) user_id day)
  /\ (collection <> collection_name Product ->
      forall locale,
        list_products (Some (create_document st collection d).1) locale
        = list_products (Some st) locale)
  /\ (collection <> collection_name Devotional ->
      forall qdate locale,
        get_devotional_by_date (Some (create_document st collection d).1) qdate locale
        = get_devotional_by_date (Some st) qdate locale).
Proof.
  split; [|split].
  - intros Hne user_id day. rewrite !progress_stats_records. unfold user_records.
    by rewrite get_documents_create_ne.
  - intros Hne locale. by rewrite !list_products_docs, documents_create_ne.
  - intros Hne qdate locale.
    by rewrite !get_devotional_by_date_docs, get_documents_create_ne.
Qed.

Lemma create_order_store st st' payload response :
  create_order (Some st) payload = Return (st', response) ->
  exists record, st' = (create_document st (collection_name Order) record).1.
Proof.
  intros H.
  destruct (order_total 0 (oc_items payload)) as [total|e] eqn:E;
    [|by unfold create_order in H; rewrite E in H].
  destruct (create_order_Return st payload total E) as (record & Hc & _).
  exists record. rewrite Hc in H. congruence.
Qed.

(** X5. Every write goes to one collection and the reads of the other
    collections do not see it: an order changes neither the stats, nor the
    product list, nor the devotionals; a completion changes neither the
    product list nor the devotionals; a devotional or a product changes no
    stats. *)
Theorem writes_touch_one_collection
    (st st' : store) (user_id qdate locale : string) (day : date) :
  (forall payload response,
     create_order (Some st) payload = Return (st', response) ->
     progress_stats (Some st') user_id day = progress_stats (Some st) user_id day
     /\ list_products (Some st') locale = list_products (Some st) locale
     /\ get_devotional_by_date (Some st') qdate locale
        = get_devotional_by_date (Some st) qdate locale)
  /\ (forall payload today response,
       complete_today (Some st) payload today = Return (st', response) ->
       list_products (Some st') locale = list_products (Some st) locale
       /\ get_devotional_by_date (Some st') qdate locale
          = get_devotional_by_date (Some st) qdate locale)
  /\ (forall payload inserted_id,
       create_devotional (Some st) payload = Return (st', inserted_id) ->
       progress_stats (Some st') user_id day = progress_stats (Some st) user_id day
       /\ list_products (Some st') locale = list_products (Some st) locale)
  /\ (forall payload inserted_id,
       create_product (Some st) payload = Return (st', inserted_id) ->
       progress_stats (Some st') user_id day = progress_stats (Some st) user_id day
       /\ get_devotional_by_date (Some st') qdate locale
          = get_devotional_by_date (Some st) qdate locale).
Proof.
  split; [|split; [|split]].
  - intros payload response H. apply create_order_store in H as [record ->].
    destruct (reads_framed st (collection_name Order) record) as (H1 & H2 & H3).
    split; [by apply H1|]. split; [by apply H2|by apply H3].
  - intros payload today response H. apply complete_today_store in H as ->.
    destruct (reads_framed st (collection_name Progress)
                (completion_record (cr_user_id payload)
                   (default today (cr_date payload)))) as (_ & H2 & H3).
    split; [by apply H2|by apply H3].
  - intros payload inserted_id H. apply create_devotional_store in H as ->.
    destruct (reads_framed st (collection_name Devotional) (devotional_record payload))
      as (H1 & H2 & _).
    split; [by apply H1|by apply H2].
  - intros payload inserted_id H. apply create_product_store in H as ->.
    destruct (reads_framed st (collection_name Product) (product_dump payload))
      as (H1 & _ & H3).
    split; [by apply H1|by apply H3].
Qed.

End Endpoints.

(** ** The builtins on concrete values *)

Example strptime_iso : strptime_ymd "2025-01-02" = Some day_2025_01_02.
Proof. reflexivity. Qed.

Example strptime_short_fields : strptime_ymd "2025-1-2" = Some day_2025_01_02.
Proof. reflexivity. Qed.

Example strptime_not_a_date : strptime_ymd "not-a-date" = None.
Proof. reflexivity. Qed.

Example strptime_trailing_text : strptime_ymd "2025-01-02T00:00:00" = None.
Proof. reflexivity. Qed.

Example strptime_no_such_day : strptime_ymd "2025-02-29" = None.
Proof. reflexivity. Qed.

Example strptime_year_zero : strptime_ymd "0000-01-01" = None.
Proof. reflexivity. Qed.

Example isoformat_today : isoformat day_2025_01_02 = "2025-01-02".
Proof. reflexivity. Qed.

Example isoformat_first_day : isoformat 1%positive = "0001-01-01".
Proof. reflexivity. Qed.

Example isoformat_last_day : isoformat 3652059%positive = "9999-12-31".
Proof. reflexivity. Qed.

(** [round] goes to the nearest hundredth of the exact binary value, ties
    to even: 0.125 is a tie, 2.675 is below one, -0.001 keeps its sign. *)
Example round2_tie : round2 0.125 = 0.12%float.
Proof. by vm_compute. Qed.

Example round2_below_tie : round2 2.675 = 2.67%float.
Proof. by vm_compute. Qed.

Example round2_negative_zero : round2 (-0.001) = (-0)%float.
Proof. by vm_compute. Qed.

(** The largest [int] that [float] converts, and the one after it. *)
Example float_of_int_largest :
  float_of_int (2 ^ 1024 - 2 ^ 970 - 1) = Return 0x1.fffffffffffffp+1023%float.
Proof. by vm_compute. Qed.

Example float_of_int_overflow : float_of_int (2 ^ 1024 - 2 ^ 970) = Raise OverflowError.
Proof. by vm_compute. Qed.

Example float_of_int_ties_to_even : float_of_int (2 ^ 53 + 1) = Return 9007199254740992%float.
Proof. by vm_compute. Qed.

(** ** The properties on concrete records *)

(** The scenario of the specification: two completed days, seen on the
    second of them and two days later. *)
Example stats_on_second_day :
  compute_stats reject_str [jan_01; jan_02] day_2025_01_02
  = Return {| days_completed := 2; current_streak := 2; total_points := 20 |}.
Proof. by vm_compute. Qed.

Example stats_after_a_gap :
  compute_stats reject_str [jan_01; jan_02] day_2025_01_04
  = Return {| days_completed := 2; current_streak := 0; total_points := 20 |}.
Proof. by vm_compute. Qed.

(** A completion recorded through the endpoint is found by the stats. *)
Example complete_then_stats :
  (st ← complete_today (Some empty_store)
         {| cr_user_id := "u1"; cr_date := None |} day_2025_01_02;
   progress_stats reject_str (Some st.1) "u1" day_2025_01_02)
  = Return {| days_completed := 1; current_streak := 1; total_points := 10 |}.
Proof. by vm_compute. Qed.

Lemma sample_points_ok : points_ok reject_str [jan_01; jan_02].
Proof. apply points_ok_Forall. repeat constructor; eexists; by vm_compute. Defined.

Lemma sample_has_gap : has_gap [jan_01; jan_02] day_2025_01_02.
Proof.
  exists 739251%positive. split; [by vm_compute|].
  apply not_completed_on_decide. by vm_compute.
Defined.

(** A day that was opened and not completed stops the walk: the streak seen
    on 2025-01-02 is 2, and 2024-12-31, whose only record has
    [completed == false], is the day where it stops. *)
Example stats_after_a_skipped_day :
  compute_stats reject_str [dec_31_skipped; jan_01; jan_02] day_2025_01_02
  = Return {| days_completed := 2; current_streak := 2; total_points := 20 |}.
Proof. by vm_compute. Qed.

(** Two records of one completed day and a record of today that is not
    completed: one day is counted, the streak is 0, and the points of the
    three records are added. *)
Example stats_on_a_skipped_day :
  compute_stats reject_str [jan_01; jan_01; jan_02_skipped] day_2025_01_02
  = Return {| days_completed := 1; current_streak := 0; total_points := 25 |}.
Proof. by vm_compute. Qed.

(** The date of a record may be written with any decimal digits. *)
Example stats_on_fullwidth_digits :
  compute_stats reject_str [jan_02_fullwidth] day_2025_01_02
  = Return {| days_completed := 1; current_streak := 1; total_points := 10 |}.
Proof. by vm_compute. Qed.

(** Outside the data model, the computation takes any truthy [completed]
    for a completion: the string ["no"] counts. *)
Example stats_on_untyped_completed :
  jan_02_said_no !! "completed" = Some (VStr "no")
  /\ compute_stats reject_str [jan_02_said_no] day_2025_01_02
     = Return {| days_completed := 1; current_streak := 1; total_points := 10 |}.
Proof. split; by vm_compute. Qed.

Lemma skipped_day_boolean : boolean_completed [dec_31_skipped; jan_01; jan_02].
Proof. apply boolean_completed_Forall. repeat constructor; eexists; by vm_compute. Defined.

Lemma skipped_day_points_ok : points_ok reject_str [dec_31_skipped; jan_01; jan_02].
Proof. apply points_ok_Forall. repeat constructor; eexists; by vm_compute. Defined.

Lemma current_streak_walks_back_witness :
  boolean_completed [dec_31_skipped; jan_01; jan_02]
  /\ points_ok reject_str [dec_31_skipped; jan_01; jan_02]
  /\ (forall d : date,
        (739251 < d <= day_2025_01_02)%positive ->
        has_completed_record [dec_31_skipped; jan_01; jan_02] d)
  /\ ~ has_completed_record [dec_31_skipped; jan_01; jan_02] 739251%positive
  /\ exists st,
       compute_stats reject_str [dec_31_skipped; jan_01; jan_02] day_2025_01_02
       = Return st
       /\ current_streak st = 2.
Proof.
  assert (Hrun : forall d : date,
            (739251 < d <= day_2025_01_02)%positive ->
            has_completed_record [dec_31_skipped; jan_01; jan_02] d).
  { unfold day_2025_01_02. intros d Hd.
    assert (d = 739252%positive \/ d = 739253%positive) as [-> | ->] by lia;
      apply has_completed_record_Exists.
    - apply Exists_cons_tl, Exists_cons_hd. split; by vm_compute.
    - apply Exists_cons_tl, Exists_cons_tl, Exists_cons_hd. split; by vm_compute. }
  assert (Hstop : ~ has_completed_record [dec_31_skipped; jan_01; jan_02]
                      739251%positive).
  { apply no_completed_record_Forall.
    constructor; [right; by vm_compute|].
    constructor; [left; by vm_compute|].
    constructor; [left; by vm_compute|constructor]. }
  split; [exact skipped_day_boolean|]. split; [exact skipped_day_points_ok|].
  split; [exact Hrun|]. split; [exact Hstop|].
  refine (proj1 (proj2 (current_streak_walks_back reject_str
                          [dec_31_skipped; jan_01; jan_02] day_2025_01_02
                          skipped_day_boolean))
            skipped_day_points_ok 2 739251%positive _ _ _ Hstop).
  - lia.
  - reflexivity.
  - intros d Hd. apply Hrun. unfold day_2025_01_02 in *. lia.
Defined.

Lemma days_completed_counts_distinct_days_witness :
  boolean_completed [jan_01; jan_01; jan_02_skipped]
  /\ exists days : list date,
       NoDup days
       /\ (forall d, d ∈ days <-> has_completed_record [jan_01; jan_01; jan_02_skipped] d)
       /\ 1 = Z.of_nat (length days).
Proof.
  assert (Hb : boolean_completed [jan_01; jan_01; jan_02_skipped]).
  { apply boolean_completed_Forall. repeat constructor; eexists; by vm_compute. }
  split; [exact Hb|].
  exact (proj2 (days_completed_counts_distinct_days reject_str
                  [jan_01; jan_01; jan_02_skipped] day_2025_01_02 Hb)
           _ stats_on_a_skipped_day).
Defined.

(** A completed day and a day that was opened and not completed: the points
    of both records are added. *)
Example stats_with_a_skipped_day :
  compute_stats reject_str [jan_01; jan_02_skipped] day_2025_01_02
  = Return {| days_completed := 1; current_streak := 0; total_points := 15 |}.
Proof. by vm_compute. Qed.

Lemma total_points_sums_all_records_witness :
  15 = sum_Z (points_value reject_str <$> filter parseable [jan_01; jan_02_skipped])
  /\ exists st',
       compute_stats reject_str ([jan_01; jan_02_skipped] ++ [jan_01]) day_2025_01_02
       = Return st'
       /\ total_points st' = 15 + 10
       /\ days_completed st' = 1.
Proof.
  destruct (proj2 (total_points_sums_all_records reject_str [jan_01; jan_02_skipped]
                     day_2025_01_02) _ stats_with_a_skipped_day) as [Hsum Hmore].
  split; [exact Hsum|].
  refine (Hmore jan_01 739252%positive _ _ _).
  - by vm_compute.
  - apply completed_on_decide. by vm_compute.
  - eexists. by vm_compute.
Defined.

Lemma unparseable_record_excluded_witness :
  parse_d (get "date" malformed) = None
  /\ compute_stats reject_str ([jan_01] ++ malformed :: [jan_02]) day_2025_01_02
     = compute_stats reject_str ([jan_01] ++ [jan_02]) day_2025_01_02
  /\ compute_stats reject_str [malformed] day_2025_01_02
     = Return {| days_completed := 0; current_streak := 0; total_points := 0 |}.
Proof.
  split; [by vm_compute|].
  apply (unparseable_record_excluded reject_str [jan_01] [jan_02] malformed
           day_2025_01_02).
  by vm_compute.
Defined.

Lemma stats_invariant_under_permutation_witness :
  [jan_01; jan_02] ≡ₚ [jan_02; jan_01]
  /\ forall st,
       compute_stats reject_str [jan_01; jan_02] day_2025_01_02 = Return st
       <-> compute_stats reject_str [jan_02; jan_01] day_2025_01_02 = Return st.
Proof.
  split; [apply Permutation_swap|].
  apply (stats_invariant_under_permutation reject_str [jan_01; jan_02] [jan_02; jan_01]
           day_2025_01_02).
  apply Permutation_swap.
Defined.

Lemma current_streak_le_days_completed_witness :
  returns (compute_stats reject_str [jan_01; jan_02] day_2025_01_02)
  /\ 0 <= 2 <= 2.
Proof.
  destruct (current_streak_le_days_completed reject_str [jan_01; jan_02] day_2025_01_02)
    as [Hret Hle].
  split; [exact (Hret sample_points_ok sample_has_gap)|].
  exact (Hle _ stats_on_second_day).
Defined.

Lemma order_total_2_times_3_005_witness :
  exists record : gmap string pyval,
    create_order reject_str (Some empty_store)
      {| oc_user_id := "u1";
         oc_items := [line_item (VInt 2) (VFloat 3.005)];
         oc_currency := "USD" |}
    = Return ((create_document empty_store (collection_name Order) record).1,
              {| o_id := (create_document empty_store (collection_name Order) record).2;
                 o_total_amount := VFloat 6.01 |})
    /\ get "total_amount" record = VFloat 6.01.
Proof.
  apply (order_total_2_times_3_005 reject_str empty_store "u1" "USD"
           (line_item (VInt 2) (VFloat 3.005))).
  - left. reflexivity.
  - reflexivity.
Defined.

(** Nine units at 0.055: the binary64 product is just below 0.495 and is
    rounded to 0.49, while the product of the two numbers is just above
    0.495, which is 0.50 to 2 decimal places. *)
Example order_of_nine_at_0_055 :
  exists st',
    create_order reject_str (Some empty_store)
      {| oc_user_id := "u1"; oc_items := [nine_at_0_055]; oc_currency := "USD" |}
    = Return (st', {| o_id := 1%positive; o_total_amount := VFloat 0.49 |}).
Proof. eexists. by vm_compute. Qed.

Example exact_sum_of_nine_at_0_055 :
  exact_sum [nine_at_0_055] = Some (71337018097548657 # 144115188075855872)%Q
  /\ (495 # 1000 < 71337018097548657 # 144115188075855872)%Q.
Proof. split; by vm_compute. Qed.

(** The sum of [qty * price] rounded to 2 decimal places is 0.50 here. *)
Example rounded_exact_sum_of_nine_at_0_055 : rounded_exact_sum [nine_at_0_055] 0.5.
Proof.
  exists (71337018097548657 # 144115188075855872)%Q, 50.
  split; [by vm_compute|]. split; [by vm_compute|].
  exists (4503599627370496 # 9007199254740992)%Q. split; [by vm_compute|].
  intros t' v' _.
  assert (Hzero : ((4503599627370496 # 9007199254740992) - (50 # 100) == 0)%Q)
    by (by vm_compute).
  rewrite Hzero. apply Qabs_nonneg.
Qed.

Example hundredths_float_49 : hundredths_float false 49 = 0.49%float.
Proof. by vm_compute. Qed.

Example hundredths_float_50 : hundredths_float false 50 = 0.5%float.
Proof. by vm_compute. Qed.

Example hundredths_float_negative : hundredths_float true 1 = (-0.01)%float.
Proof. by vm_compute. Qed.

(** C4, as stated, fails: every quantity and price is numeric, the stored
    and returned total is 0.49, and 0.49 is not the sum of [qty * price]
    rounded to 2 decimal places, whichever way a tie goes. *)
Lemma order_total_9_times_0_055_not_rounded_sum :
  Forall numeric_item [nine_at_0_055]
  /\ (exists record : gmap string pyval,
        create_order reject_str (Some empty_store)
          {| oc_user_id := "u1"; oc_items := [nine_at_0_055]; oc_currency := "USD" |}
        = Return ((create_document empty_store (collection_name Order) record).1,
                  {| o_id := (create_document empty_store (collection_name Order) record).2;
                     o_total_amount := VFloat 0.49 |})
        /\ get "total_amount" record = VFloat 0.49)
  /\ ~ rounded_exact_sum [nine_at_0_055] 0.49.
Proof.
  split; [repeat constructor; by (eexists; vm_compute)|]. split.
  - destruct (create_order_Return reject_str empty_store
                {| oc_user_id := "u1"; oc_items := [nine_at_0_055]; oc_currency := "USD" |}
                0x1.fae147ae147aep-2%float)
      as (record & Hc & Ht & _); [by vm_compute|].
    exists record.
    assert (Hr : round2 0x1.fae147ae147aep-2 = 0.49%float) by (by vm_compute).
    rewrite Hr in Hc, Ht. by split.
  - intros (q & n & Hq & Hn & v & Hv & Hnear).
    vm_compute in Hq. injection Hq as <-.
    vm_compute in Hv. injection Hv as <-.
    assert (n = 50) as ->.
    { unfold rounds_to_hundredths, Qle, Qabs, Qminus, Qplus, Qopp, Qmult, inject_Z in Hn.
      simpl in Hn. lia. }
    assert (Hhalf : exists v', float_value 0.5 = Some v' /\ (v' - (50 # 100) == 0)%Q)
      by (eexists; split; by vm_compute).
    destruct Hhalf as (v' & Hv' & Hzero).
    specialize (Hnear 0.5%float v' Hv').
    rewrite Hzero in Hnear. vm_compute in Hnear. by apply Hnear.
Qed.

Lemma order_total_amount_is_rounded_float_sum_witness :
  Forall numeric_item [nine_at_0_055]
  /\ exists (record : gmap string pyval) (t : float),
       get "total_amount" record = VFloat t
       /\ rounded_float (float_sum (line_amount reject_str <$> [nine_at_0_055])) t.
Proof.
  assert (HF : Forall numeric_item [nine_at_0_055]).
  { repeat constructor; by (eexists; vm_compute). }
  split; [exact HF|].
  destruct (order_total_amount_is_rounded_float_sum reject_str empty_store
              {| oc_user_id := "u1"; oc_items := [nine_at_0_055]; oc_currency := "USD" |})
    as [Hret Hres].
  destruct (Hret HF) as [[st' response] E].
  destruct (Hres st' response E) as (record & t & _ & _ & Ht & _ & Hround & _).
  exists record, t. by split.
Defined.

(** The two items above cost 2 * 3.005 + 1.5 * 1.0, stored and returned as 7.51. *)
Example order_of_two_items :
  exists st',
    create_order reject_str (Some empty_store)
      {| oc_user_id := "u1";
         oc_items := [line_item (VInt 2) (VFloat 3.005);
                      line_item (VFloat 1.5) (VBool true)];
         oc_currency := "USD" |}
    = Return (st', {| o_id := 1%positive; o_total_amount := VFloat 7.51 |}).
Proof. eexists. by vm_compute. Qed.

(** An [int] too large for [float] is where the coercion of [create_order]
    stops: on the quantity 2^1024, [float] raises [OverflowError] and no
    order is created. *)
Example order_with_huge_quantity_raises :
  Forall (fun item => is_number (get_default "qty" (VInt 1) item)
                      /\ is_number (get_default "price" (VInt 0) item))
         [line_item (VInt (2 ^ 1024)) (VFloat 1)]
  /\ create_order reject_str (Some empty_store)
       {| oc_user_id := "u1";
          oc_items := [line_item (VInt (2 ^ 1024)) (VFloat 1)];
          oc_currency := "USD" |}
     = Raise OverflowError.
Proof. split; [by repeat constructor|by vm_compute]. Qed.

(** Completing every day since 0001-01-01 is where the streak loop stops:
    the day before the first day of the calendar does not exist. *)
Example streak_at_calendar_start :
  compute_stats reject_str [progress_record "0001-01-01" true (VInt 10)] 1%positive
  = Raise OverflowError.
Proof. by vm_compute. Qed.

(** ** The further properties on concrete stores *)

Lemma parse_d_isoformat_witness :
  parse_d (VStr (isoformat day_2025_01_02)) = Some day_2025_01_02
  /\ forall d' : date,
       (d' <= 3652059)%positive -> isoformat d' = isoformat day_2025_01_02 ->
       d' = day_2025_01_02.
Proof. apply (parse_d_isoformat day_2025_01_02). by vm_compute. Defined.

Lemma completion_is_counted_witness :
  returns (progress_stats reject_str
             (Some (create_document store_with_jan_01 (collection_name Progress)
                      (completion_record "u1" day_2025_01_02)).1) "u1" day_2025_01_02)
  /\ 20 = 10 + 10 /\ 0 <= 2.
Proof.
  destruct (completion_is_counted reject_str store_with_jan_01
              (create_document store_with_jan_01 (collection_name Progress)
                 (completion_record "u1" day_2025_01_02)).1
              complete_u1 day_2025_01_02 {| c_id := 2; c_points_earned := 10 |}
              {| days_completed := 1; current_streak := 0; total_points := 10 |})
    as [Hret Hfacts].
  - by vm_compute.
  - by vm_compute.
  - by vm_compute.
  - split; [apply Hret; by vm_compute|].
    destruct (Hfacts {| days_completed := 2; current_streak := 2; total_points := 20 |})
      as (Ht & _ & _ & Hs); [by vm_compute|].
    exact (conj Ht Hs).
Defined.

Lemma completing_today_extends_streak_witness :
  exists s1,
    progress_stats reject_str
      (Some (create_document store_with_jan_01 (collection_name Progress)
               (completion_record "u1" day_2025_01_02)).1) "u1" day_2025_01_02
    = Return s1
    /\ current_streak s1 = 1 + 1
    /\ total_points s1 = 10 + 10.
Proof.
  refine (completing_today_extends_streak reject_str store_with_jan_01 _ complete_u1
            day_2025_01_02 {| c_id := 2; c_points_earned := 10 |}
            {| days_completed := 1; current_streak := 1; total_points := 10 |}
            _ _ _ _).
  - by vm_compute.
  - by left.
  - by vm_compute.
  - by vm_compute.
Defined.

Lemma completion_leaves_other_users_witness :
  progress_stats reject_str
    (Some (create_document store_with_jan_01 (collection_name Progress)
             (completion_record "u2" day_2025_01_02)).1) "u1" day_2025_01_02
  = progress_stats reject_str (Some store_with_jan_01) "u1" day_2025_01_02.
Proof.
  refine (completion_leaves_other_users reject_str store_with_jan_01 _
            {| cr_user_id := "u2"; cr_date := None |} day_2025_01_02
            {| c_id := 2; c_points_earned := 10 |} "u1" day_2025_01_02 _ _).
  - by vm_compute.
  - done.
Defined.

Lemma stats_without_records_witness :
  progress_stats reject_str (Some store_with_jan_01) "u2" day_2025_01_02
  = Return {| days_completed := 0; current_streak := 0; total_points := 0 |}.
Proof.
  apply (stats_without_records reject_str store_with_jan_01 "u2" day_2025_01_02).
  intros d Hd. apply list_elem_of_singleton in Hd as ->. by vm_compute.
Defined.

Lemma stats_read_three_fields_witness :
  compute_stats reject_str [jan_01; jan_02] day_2025_01_02
  = compute_stats reject_str
      [<["_id" := VInt 1]> jan_01; <["user_id" := VStr "u2"]> jan_02] day_2025_01_02.
Proof.
  apply (stats_read_three_fields reject_str).
  repeat (constructor; [by vm_compute|]). constructor.
Defined.

Lemma days_and_points_do_not_depend_on_today_witness : 1 = 1 /\ 10 = 10.
Proof.
  refine (days_and_points_do_not_depend_on_today reject_str store_with_jan_01 "u1"
            day_2025_01_02 day_2025_01_04
            {| days_completed := 1; current_streak := 0; total_points := 10 |}
            {| days_completed := 1; current_streak := 0; total_points := 10 |} _ _);
    by vm_compute.
Defined.

Lemma stats_bounded_by_records_witness :
  0 <= 0 <= 1 /\ 1 <= Z.of_nat (length (user_records store_with_jan_01 "u1")).
Proof.
  refine (stats_bounded_by_records reject_str store_with_jan_01 "u1" day_2025_01_02
            {| days_completed := 1; current_streak := 0; total_points := 10 |} _).
  by vm_compute.
Defined.

Lemma created_devotional_is_found_witness :
  get_devotional_by_date (Some store_with_devotional) (isoformat day_2025_01_02) "zh"
  = Return {| dv_date := VStr "2025-01-02"; dv_title := VStr "安息";
              dv_passage := VNone; dv_content := VStr "要安静。";
              dv_reflection_prompt := VNone |}.
Proof.
  refine (created_devotional_is_found empty_store store_with_devotional
            sample_devotional 1%positive "zh" _ _).
  - by vm_compute.
  - intros d Hd. inversion Hd.
Defined.

Lemma first_devotional_wins_witness :
  get_devotional_by_date
    (Some (create_document store_with_devotional (collection_name Devotional)
             (devotional_record later_devotional)).1) "2025-01-02" "en"
  = Return {| dv_date := VStr "2025-01-02"; dv_title := VStr "Rest";
              dv_passage := VStr "Psalm 23"; dv_content := VStr "Be still.";
              dv_reflection_prompt := VNone |}.
Proof.
  refine (first_devotional_wins store_with_devotional _ later_devotional 2%positive
            "2025-01-02" "en" _ _ _).
  - by vm_compute.
  - by vm_compute.
Defined.

Lemma devotional_of_another_day_witness :
  get_devotional_by_date (Some store_with_devotional) (isoformat day_2025_01_04) "en"
  = get_devotional_by_date (Some empty_store) (isoformat day_2025_01_04) "en".
Proof.
  refine (devotional_of_another_day empty_store store_with_devotional
            sample_devotional 1%positive day_2025_01_04 "en" _ _ _ _);
    by vm_compute.
Defined.

Lemma created_product_is_listed_last_witness :
  exists before,
    list_products (Some empty_store) "en" = Return before
    /\ length before = length (documents empty_store (collection_name Product))
    /\ list_products
         (Some (create_document empty_store (collection_name Product)
                  (product_dump hidden_product)).1) "en"
       = Return
           (before ++
            [{| pv_sku := VStr "sku-1"; pv_title := VStr "Journal";
                pv_description := VNone; pv_price := VFloat 9.5;
                pv_currency := VStr "USD"; pv_media_urls := VList [VStr "a.png"];
                pv_status := VStr "hidden" |}]).
Proof.
  refine (created_product_is_listed_last empty_store _ hidden_product 1%positive "en" _).
  by vm_compute.
Defined.

Lemma writes_touch_one_collection_witness :
  progress_stats reject_str (Some store_with_devotional) "u1" day_2025_01_02
  = progress_stats reject_str (Some empty_store) "u1" day_2025_01_02
  /\ list_products (Some store_with_devotional) "en"
     = list_products (Some empty_store) "en".
Proof.
  refine (proj1 (proj2 (proj2 (writes_touch_one_collection reject_str reject_str
                                 empty_store store_with_devotional
                                 "u1" "2025-01-02" "en" day_2025_01_02)))
            sample_devotional 1%positive _).
  by vm_compute.
Defined.

Lemma create_order_returns_iff_witness :
  Forall (convertible_item reject_str) [line_item (VInt 2) (VFloat 3.005)]
  /\ returns (create_order reject_str (Some empty_store)
                {| oc_user_id := "u1";
                   oc_items := [line_item (VInt 2) (VFloat 3.005)];
                   oc_currency := "USD" |}).
Proof.
  assert (HF : Forall (convertible_item reject_str) [line_item (VInt 2) (VFloat 3.005)]).
  { repeat constructor; eexists; by vm_compute. }
  split; [exact HF|].
  exact (proj2 (proj1 (create_order_returns_iff reject_str empty_store
                         {| oc_user_id := "u1";
                            oc_items := [line_item (VInt 2) (VFloat 3.005)];
                            oc_currency := "USD" |})) HF).
Defined.

Lemma devotional_by_date_first_or_404_witness :
  get_devotional_by_date (Some store_with_devotional) "2025-01-03" "en"
  = Raise (HTTPException 404 "Devotional not found").
Proof.
  apply (proj1 (devotional_by_date_first_or_404 store_with_devotional "2025-01-03" "en")).
  intros d Hd. apply list_elem_of_singleton in Hd as ->. by vm_compute.
Defined.
